(** * Task list and task form: a shallow embedding of the two React components

    The repository holds two components.  [TaskList] owns the in-memory list
    of tasks and talks to the hosted store for loading, deleting and changing
    the status of a task; [TaskForm] owns one create-or-edit form and reports
    the saved record back through its [onSave] property.

    The embedding keeps the shape of the TypeScript:
    - strings are [string], nullable values are [option];
    - every [await] on the store client appends the request to a trace and
      reads the answer from a [Backend] (the remote side is an oracle);
    - [try]/[catch]/[finally] are combinators of a small monad that threads
      the component state, the trace and a possibly thrown exception;
    - an event handler is a closure over the values of the render that
      created it, so each handler takes that render's state as an argument. *)

From Stdlib Require Import String Ascii List Bool Arith Lia.
Import ListNotations.
Open Scope string_scope.

(** ** JavaScript values *)

(** Truthiness of a string: only the empty string is falsy. *)
Definition truthy (s : string) : bool := negb (s =? "").

(** [s || null] on a string. *)
Definition or_null (s : string) : option string :=
  if truthy s then Some s else None.

(** [xs || []] on a nullable array (an array is always truthy). *)
Definition or_empty {A : Type} (xs : option (list A)) : list A :=
  match xs with
  | Some l => l
  | None => []
  end.

(** Exceptions that the two components can see. *)
Inductive Exn : Type :=
| PostgrestError (message : string)   (* [throw error], the store's error object *)
| JsError (message : string)          (* [throw new Error(message)] *)
| RangeError.                         (* thrown by [toISOString] on an invalid date *)

Inductive Outcome (A : Type) : Type :=
| Returned (a : A)
| Thrown (e : Exn).
Arguments Returned {A} a.
Arguments Thrown {A} e.

(** ** The part of [Date] that the form uses

    [new Date(dueDate).toISOString()] is applied to the value of an
    [<input type="date">]: the empty string or a calendar date.  The model
    covers the dates written [YYYY-MM-DD] with a year of four digits, the
    date-only form of the ECMAScript date-time string format: such a string
    denotes midnight UTC of that day, and [toISOString] prints the UTC
    fields.  A [Date] is modelled by its UTC fields, with a year from 0 to
    9999; [None] stands for an invalid date.

    A date input can also hold a year beyond 9999.  Such a string is not in
    the ECMAScript format, what [new Date] makes of it is left to the
    engine and its time zone, and the model does not describe it: outside
    the date-only form [new_Date] gives an invalid date, which is not what
    an engine need do.  Every statement that depends on the conversion
    therefore assumes [is_date_input_value]; the others hold whatever the
    conversion returns. *)
Module JSDate.

Local Open Scope nat_scope.

Record Fields : Type := {
  year : nat; month : nat; day : nat;
  hours : nat; minutes : nat; seconds : nat; milliseconds : nat
}.

Definition t : Type := option Fields.

Definition digit_value (c : ascii) : option nat :=
  let n := nat_of_ascii c in
  if (48 <=? n) && (n <=? 57) then Some (n - 48) else None.

Definition digit_char (v : nat) : ascii := ascii_of_nat (48 + v).

Definition is_leap (y : nat) : bool :=
  (y mod 4 =? 0) && (negb (y mod 100 =? 0) || (y mod 400 =? 0)).

Definition days_in_month (y m : nat) : nat :=
  match m with
  | 1 | 3 | 5 | 7 | 8 | 10 | 12 => 31
  | 4 | 6 | 9 | 11 => 30
  | 2 => if is_leap y then 29 else 28
  | _ => 0
  end.

Definition digits2 (c1 c0 : ascii) : option nat :=
  match digit_value c1, digit_value c0 with
  | Some a, Some b => Some (10 * a + b)
  | _, _ => None
  end.

Definition digits4 (c3 c2 c1 c0 : ascii) : option nat :=
  match digit_value c3, digit_value c2, digits2 c1 c0 with
  | Some a, Some b, Some r => Some (1000 * a + 100 * b + r)
  | _, _, _ => None
  end.

Definition valid_day (y m d : nat) : bool :=
  (1 <=? m) && (m <=? 12) && (1 <=? d) && (d <=? days_in_month y m).

(** The date-only form [YYYY-MM-DD]. *)
Definition parse_date_only (s : string) : option (nat * nat * nat) :=
  match list_ascii_of_string s with
  | [y3; y2; y1; y0; h1; m1; m0; h2; d1; d0] =>
      if Ascii.eqb h1 "-" && Ascii.eqb h2 "-" then
        match digits4 y3 y2 y1 y0, digits2 m1 m0, digits2 d1 d0 with
        | Some y, Some m, Some d =>
            if valid_day y m d then Some (y, m, d) else None
        | _, _, _ => None
        end
      else None
  | _ => None
  end.

(** [new Date(s)] *)
Definition new_Date (s : string) : t :=
  match parse_date_only s with
  | Some (y, m, d) =>
      Some {| year := y; month := m; day := d;
              hours := 0; minutes := 0; seconds := 0; milliseconds := 0 |}
  | None => None
  end.

Definition digit_string (v : nat) : string := String (digit_char v) "".

Definition pad2 (n : nat) : string :=
  digit_string ((n / 10) mod 10) ++ digit_string (n mod 10).

Definition pad3 (n : nat) : string :=
  digit_string ((n / 100) mod 10) ++ pad2 n.

Definition pad4 (n : nat) : string :=
  digit_string ((n / 1000) mod 10) ++ pad3 n.

(** Years 0 to 9999 print with four digits; the date-only form yields no
    other year. *)
Definition year_string (y : nat) : string := pad4 y.

(** [d.toISOString()] *)
Definition toISOString (d : t) : Outcome string :=
  match d with
  | None => Thrown RangeError
  | Some f =>
      Returned (year_string (year f) ++ "-" ++ pad2 (month f) ++ "-" ++ pad2 (day f)
                ++ "T" ++ pad2 (hours f) ++ ":" ++ pad2 (minutes f) ++ ":"
                ++ pad2 (seconds f) ++ "." ++ pad3 (milliseconds f) ++ "Z")
  end.

(** The dates of an [<input type="date">] that have a year of four digits:
    [YYYY-MM-DD] with a month from 01 to 12 and a day of that month. *)
Definition is_date_input_value (s : string) : bool :=
  match parse_date_only s with
  | Some _ => true
  | None => false
  end.

(** *** Stored timestamps

    The form is seeded with [new Date(task.due_date)] (TaskForm.tsx, line
    23), where [task.due_date] is a timestamp of the store.  Besides the
    date-only form the model reads the date-time form at offset zero:
    [YYYY-MM-DDTHH:mm:ss], an optional fraction of one or more digits, and
    [Z] or [+00:00].  This covers what [toISOString] prints and how the
    store prints an instant at UTC, with or without microseconds.  With a
    zero offset the UTC fields are the written ones; of a longer fraction
    the first three digits are the milliseconds.  Other offsets and other
    spellings, which [new Date] may read as well, are not described: the
    model gives an invalid date for them, and the statements about the
    seeded form assume a timestamp that [new_Date_stored] reads. *)

(** The digits at the head of a list, and what follows them. *)
Fixpoint span_digits (l : list ascii) : list nat * list ascii :=
  match l with
  | c :: l' =>
      match digit_value c with
      | Some v => let (ds, rest) := span_digits l' in (v :: ds, rest)
      | None => ([], l)
      end
  | [] => ([], [])
  end.

(** The milliseconds of a fraction: its first three digits, a shorter
    fraction filled with zeros. *)
Definition millis_of (ds : list nat) : nat :=
  match ds with
  | [] => 0
  | [a] => 100 * a
  | [a; b] => 100 * a + 10 * b
  | a :: b :: c :: _ => 100 * a + 10 * b + c
  end.

Definition valid_time (h mi sec : nat) : bool :=
  (h <=? 23) && (mi <=? 59) && (sec <=? 59).

Definition zero_offset (l : list ascii) : bool :=
  match l with
  | [z] => Ascii.eqb z "Z"
  | [sg; a1; a0; c; b1; b0] =>
      Ascii.eqb sg "+" && Ascii.eqb a1 "0" && Ascii.eqb a0 "0" && Ascii.eqb c ":"
      && Ascii.eqb b1 "0" && Ascii.eqb b0 "0"
  | _ => false
  end.

(** The fraction and the offset that follow the seconds: the milliseconds
    when they are well formed. *)
Definition parse_tail (l : list ascii) : option nat :=
  match l with
  | dot :: l' =>
      if Ascii.eqb dot "." then
        let (ds, zone) := span_digits l' in
        match ds with
        | [] => None
        | _ :: _ => if zero_offset zone then Some (millis_of ds) else None
        end
      else if zero_offset l then Some 0 else None
  | [] => None
  end.

Definition parse_date_time (s : string) : option Fields :=
  match list_ascii_of_string s with
  | y3 :: y2 :: y1 :: y0 :: h1 :: m1 :: m0 :: h2 :: d1 :: d0 :: sep
    :: hh1 :: hh0 :: c1 :: mi1 :: mi0 :: c2 :: s1 :: s0 :: tail =>
      if Ascii.eqb h1 "-" && Ascii.eqb h2 "-" && Ascii.eqb sep "T"
         && Ascii.eqb c1 ":" && Ascii.eqb c2 ":" then
        match digits4 y3 y2 y1 y0, digits2 m1 m0, digits2 d1 d0,
              digits2 hh1 hh0, digits2 mi1 mi0, digits2 s1 s0, parse_tail tail with
        | Some y, Some m, Some d, Some h, Some mi, Some sec, Some ms =>
            if valid_day y m d && valid_time h mi sec then
              Some {| year := y; month := m; day := d;
                      hours := h; minutes := mi; seconds := sec;
                      milliseconds := ms |}
            else None
        | _, _, _, _, _, _, _ => None
        end
      else None
  | _ => None
  end.

(** [new Date(s)] on a stored timestamp: the date-only form as [new_Date]
    reads it, else the date-time form. *)
Definition new_Date_stored (s : string) : t :=
  match new_Date s with
  | Some f => Some f
  | None => parse_date_time s
  end.

End JSDate.

(** ** Data model *)

(** Modelled from the spec: the [Task] type of [@/types/task], which is not
    among the sources.  The fields are those of section 3 of the
    specification; [status] and [priority] are strings at run time, and the
    code's [default] arms are reachable only for strings outside the unions
    ['pending' | 'in_progress' | 'completed'] and ['low' | 'medium' | 'high']. *)
Module Task.

Record t : Type := {
  id : string;
  title : string;
  description : option string;
  status : string;
  priority : string;
  due_date : option string;
  created_at : string;
  user_id : string
}.

(** [{ ...task, status: s }] *)
Definition with_status (task : t) (s : string) : t :=
  {| id := id task; title := title task; description := description task;
     status := s; priority := priority task; due_date := due_date task;
     created_at := created_at task; user_id := user_id task |}.

Definition is_status (s : string) : bool :=
  (s =? "pending") || (s =? "in_progress") || (s =? "completed").

Definition is_priority (s : string) : bool :=
  (s =? "low") || (s =? "medium") || (s =? "high").

End Task.

(** The object [taskData] built by the form (TaskForm.tsx, lines 33 to 38). *)
Module TaskData.

Record t : Type := {
  title : string;
  description : option string;
  priority : string;
  due_date : option string
}.

End TaskData.

(** The signed-in account as far as the code reads it: [user.id]. *)
Module User.
Record t : Type := { id : string }.
End User.

(** ** The store client

    The client of [@/integrations/supabase/client] is not among the sources;
    it is the boundary of the model.  A request is what the chained builder
    calls of the handlers describe, awaiting the builder sends it, and the
    answer comes from the remote side.
    [Supabase.from "tasks" |> Supabase.select "*" |> Supabase.order "created_at" false]
    reads like the source. *)
Module Supabase.

Inductive Verb : Type :=
| Select (columns : string)
| Insert (row : TaskData.t) (user_id : string)   (* [{ ...taskData, user_id }] *)
| Update (patch : TaskData.t)
| UpdateStatus (status : string)                 (* [{ status: newStatus }] *)
| Delete.

Record Query : Type := {
  table : string;
  verb : Verb;
  filters : list (string * string);       (* [.eq(column, value)], in call order *)
  ordering : option (string * bool);      (* [.order(column, { ascending })] *)
  returning : bool;                       (* [.select()] after a write *)
  single_row : bool                       (* [.single()] *)
}.

Definition from (name : string) : string := name.

Definition start (v : Verb) (name : string) : Query :=
  {| table := name; verb := v; filters := []; ordering := None;
     returning := false; single_row := false |}.

Definition select (columns : string) : string -> Query := start (Select columns).
Definition insert (row : TaskData.t) (uid : string) : string -> Query := start (Insert row uid).
Definition update (patch : TaskData.t) : string -> Query := start (Update patch).
Definition update_status (s : string) : string -> Query := start (UpdateStatus s).
Definition delete : string -> Query := start Delete.

Definition eq (column value : string) (q : Query) : Query :=
  {| table := table q; verb := verb q; filters := filters q ++ [(column, value)];
     ordering := ordering q; returning := returning q; single_row := single_row q |}.

Definition order (column : string) (ascending : bool) (q : Query) : Query :=
  {| table := table q; verb := verb q; filters := filters q;
     ordering := Some (column, ascending);
     returning := returning q; single_row := single_row q |}.

Definition select_back (q : Query) : Query :=
  {| table := table q; verb := verb q; filters := filters q;
     ordering := ordering q; returning := true; single_row := single_row q |}.

Definition single (q : Query) : Query :=
  {| table := table q; verb := verb q; filters := filters q;
     ordering := ordering q; returning := returning q; single_row := true |}.

(** The answer to a request without [.single()]: [{ data, error }]. *)
Record Response : Type := {
  data : option (list Task.t);
  error : option string
}.

(** The answer to a request with [.single()]: by the client's declared
    type, either a row with no error or an error with no row. *)
Inductive SingleResponse : Type :=
| Success (row : Task.t)
| Failure (message : string).

(** Does the request carry the filter [.eq(column, value)]? *)
Definition has_filter (column value : string) (q : Query) : bool :=
  existsb (fun f => (fst f =? column) && (snd f =? value)) (filters q).

(** Does the request filter on [column] at all? *)
Definition filters_on (column : string) (q : Query) : bool :=
  existsb (fun f => fst f =? column) (filters q).

End Supabase.

Notation "x |> f" := (f x) (at level 45, left associativity, only parsing).

(** The remote side: the signed-in user, and the answer to each request. *)
Record Backend : Type := {
  auth_user : option User.t;
  answer : Supabase.Query -> Supabase.Response;
  answer_single : Supabase.Query -> Supabase.SingleResponse
}.

(** ** Notifications

    The argument of [toast] as the handlers build it; [useToast] of
    [@/hooks/use-toast] is not among the sources, and a notification is
    shown and forgotten: it gives nothing back to the handler. *)
Module Toast.

Inductive Variant : Type := Default | Destructive.

Record t : Type := {
  variant : Variant;
  title : string;
  description : string
}.

End Toast.

(** ** Observable events of a handler run *)
Inductive Event : Type :=
| EvGetUser                           (* [supabase.auth.getUser()] *)
| EvRequest (q : Supabase.Query)      (* an awaited builder *)
| EvOnSave (task : Task.t)            (* the [onSave] property is called *)
| EvOnCancel                          (* the [onCancel] property is called *)
| EvToast (t : Toast.t).

(** The requests sent to the tasks table, in order. *)
Fixpoint requests (tr : list Event) : list Supabase.Query :=
  match tr with
  | [] => []
  | EvRequest q :: tr' => q :: requests tr'
  | _ :: tr' => requests tr'
  end.

Fixpoint toasts (tr : list Event) : list Toast.t :=
  match tr with
  | [] => []
  | EvToast t :: tr' => t :: toasts tr'
  | _ :: tr' => toasts tr'
  end.

Fixpoint saved (tr : list Event) : list Task.t :=
  match tr with
  | [] => []
  | EvOnSave t :: tr' => t :: saved tr'
  | _ :: tr' => saved tr'
  end.

(** ** The handler monad *)
Section Effects.

Context {S : Type}.

Record Run (A : Type) : Type := {
  outcome : Outcome A;
  final : S;
  trace : list Event
}.
Arguments outcome {A} r.
Arguments final {A} r.
Arguments trace {A} r.

Definition Eff (A : Type) : Type := Backend -> S -> Run A.

Definition ret {A} (a : A) : Eff A :=
  fun _ s => {| outcome := Returned a; final := s; trace := [] |}.

Definition throw {A} (e : Exn) : Eff A :=
  fun _ s => {| outcome := Thrown e; final := s; trace := [] |}.

Definition bind {A B} (m : Eff A) (k : A -> Eff B) : Eff B :=
  fun b s =>
    let r := m b s in
    match outcome r with
    | Thrown e => {| outcome := Thrown e; final := final r; trace := trace r |}
    | Returned a =>
        let r' := k a b (final r) in
        {| outcome := outcome r'; final := final r'; trace := trace r ++ trace r' |}
    end.

Definition emit (e : Event) : Eff unit :=
  fun _ s => {| outcome := Returned tt; final := s; trace := [e] |}.

Definition modify (f : S -> S) : Eff unit :=
  fun _ s => {| outcome := Returned tt; final := f s; trace := [] |}.

Definition lift {A} (o : Outcome A) : Eff A :=
  fun _ s => {| outcome := o; final := s; trace := [] |}.

(** [try { body } catch (error) { handler }] *)
Definition try_catch (body : Eff unit) (handler : Exn -> Eff unit) : Eff unit :=
  fun b s =>
    let r := body b s in
    match outcome r with
    | Returned _ => r
    | Thrown e =>
        let r' := handler e b (final r) in
        {| outcome := outcome r'; final := final r'; trace := trace r ++ trace r' |}
    end.

(** [try { body } catch (error) { handler } finally { last }] *)
Definition try_catch_finally (body : Eff unit) (handler : Exn -> Eff unit)
    (last : Eff unit) : Eff unit :=
  fun b s =>
    let r := try_catch body handler b s in
    let r' := last b (final r) in
    {| outcome := match outcome r' with
                  | Thrown e => Thrown e
                  | Returned _ => outcome r
                  end;
       final := final r';
       trace := trace r ++ trace r' |}.

(** [await supabase.auth.getUser()], reading [data.user]. *)
Definition getUser : Eff (option User.t) :=
  fun b s => {| outcome := Returned (auth_user b); final := s; trace := [EvGetUser] |}.

(** [await] on a builder without [.single()]. *)
Definition await (q : Supabase.Query) : Eff Supabase.Response :=
  fun b s => {| outcome := Returned (answer b q); final := s; trace := [EvRequest q] |}.

(** [await] on a builder that ends in [.single()]. *)
Definition await_single (q : Supabase.Query) : Eff Supabase.SingleResponse :=
  fun b s => {| outcome := Returned (answer_single b q); final := s;
                trace := [EvRequest q] |}.

Definition toast (t : Toast.t) : Eff unit := emit (EvToast t).

End Effects.

Arguments Run S A : clear implicits.
Arguments Eff S A : clear implicits.
Arguments outcome {S A} r.
Arguments final {S A} r.
Arguments trace {S A} r.

Notation "x <- m ;; k" := (bind m (fun x => k))
  (at level 61, m at next level, right associativity).
Notation "m ;;; k" := (bind m (fun _ => k))
  (at level 61, right associativity).

(** ** TaskForm.tsx *)
Module TaskForm.

(** [TaskFormProps].  The two callbacks belong to the parent component and
    act on its state [P]. *)
Record Props (P : Type) : Type := {
  task : option Task.t;
  onSave : Task.t -> P -> P;
  onCancel : P -> P
}.
Arguments task {P} p.
Arguments onSave {P} p.
Arguments onCancel {P} p.

(** The [useState] cells of the form. *)
Record State : Type := {
  title : string;
  description : string;
  priority : string;
  dueDate : string;
  loading : bool
}.

(** The values of the four inputs. *)
Definition fields (s : State) : string * string * string * string :=
  (title s, description s, priority s, dueDate s).

Definition setLoading {P : Type} (v : bool) : Eff (P * State) unit :=
  modify (fun s =>
    (fst s, {| title := title (snd s); description := description (snd s);
               priority := priority (snd s); dueDate := dueDate (snd s);
               loading := v |})).

(** Calling the [onSave] property runs the parent's continuation. *)
Definition call_onSave {P : Type} (props : Props P) (saved_task : Task.t)
    : Eff (P * State) unit :=
  fun _ s => {| outcome := Returned tt;
                final := (onSave props saved_task (fst s), snd s);
                trace := [EvOnSave saved_task] |}.

Definition call_onCancel {P : Type} (props : Props P) : Eff (P * State) unit :=
  fun _ s => {| outcome := Returned tt;
                final := (onCancel props (fst s), snd s);
                trace := [EvOnCancel] |}.

(** [dueDate ? new Date(dueDate).toISOString() : null] *)
Definition due_date_of (dueDate : string) : Outcome (option string) :=
  if truthy dueDate then
    match JSDate.toISOString (JSDate.new_Date dueDate) with
    | Returned iso => Returned (Some iso)
    | Thrown e => Thrown e
    end
  else Returned None.

(** The object literal [taskData] (lines 33 to 38), over the values [r] of
    the render that created the handler. *)
Definition buildTaskData (r : State) : Outcome TaskData.t :=
  match due_date_of (dueDate r) with
  | Returned due =>
      Returned {| TaskData.title := title r;
                  TaskData.description := or_null (description r);
                  TaskData.priority := priority r;
                  TaskData.due_date := due |}
  | Thrown e => Thrown e
  end.

Definition saved_toast {P : Type} (props : Props P) : Toast.t :=
  {| Toast.variant := Toast.Default;
     Toast.title := "Uspešno!";
     Toast.description :=
       match task props with
       | Some _ => "Zadatak je ažuriran"
       | None => "Zadatak je kreiran"
       end |}.

Definition failed_toast {P : Type} (props : Props P) : Toast.t :=
  {| Toast.variant := Toast.Destructive;
     Toast.title := "Greška";
     Toast.description :=
       match task props with
       | Some _ => "Nije moguće ažurirati zadatak"
       | None => "Nije moguće kreirati zadatak"
       end |}.

(** [handleSubmit] (lines 28 to 77). *)
Definition handleSubmit {P : Type} (props : Props P) (r : State)
    : Eff (P * State) unit :=
  setLoading true ;;;
  try_catch_finally
    (taskData <- lift (buildTaskData r) ;;
     result <-
       match task props with
       | Some t =>
           await_single (Supabase.from "tasks"
                         |> Supabase.update taskData
                         |> Supabase.eq "id" (Task.id t)
                         |> Supabase.select_back
                         |> Supabase.single)
       | None =>
           user <- getUser ;;
           match user with
           | None => throw (JsError "User not authenticated")
           | Some u =>
               await_single (Supabase.from "tasks"
                             |> Supabase.insert taskData (User.id u)
                             |> Supabase.select_back
                             |> Supabase.single)
           end
       end ;;
     match result with
     | Supabase.Failure e => throw (PostgrestError e)
     | Supabase.Success row =>
         call_onSave props row ;;;
         toast (saved_toast props)
     end)
    (fun _ => toast (failed_toast props))
    (setLoading false).

(** The [<form onSubmit={handleSubmit}>] (lines 89 to 142).  The title
    input carries [required] (line 96) and the submit button is disabled
    while [loading] (line 135): the browser fires the submit event only
    when the title is not the empty string and the button is enabled.  The
    handler it then runs is the one of the current render. *)
Definition submit {P : Type} (props : Props P) : Eff (P * State) unit :=
  fun b s =>
    if loading (snd s) || negb (truthy (title (snd s)))
    then ret tt b s
    else handleSubmit props (snd s) b s.

(** The cancel button (line 138). *)
Definition cancel {P : Type} (props : Props P) : Eff (P * State) unit :=
  call_onCancel props.

(** *** The initial values of the inputs (lines 19 to 25) *)

(** [s || d] on strings. *)
Definition or_else (s d : string) : string := if truthy s then s else d.

(** [s.split(sep)[0]]: the text before the first separator, all of it when
    there is none. *)
Fixpoint split_head (sep : ascii) (s : string) : string :=
  match s with
  | EmptyString => EmptyString
  | String c s' => if Ascii.eqb c sep then EmptyString else String c (split_head sep s')
  end.

(** [task?.due_date ? new Date(task.due_date).toISOString().split('T')[0] : ""] *)
Definition initial_dueDate (seed : option Task.t) : Outcome string :=
  match seed with
  | Some t =>
      match Task.due_date t with
      | Some stamp =>
          if truthy stamp then
            match JSDate.toISOString (JSDate.new_Date_stored stamp) with
            | Returned iso => Returned (split_head "T" iso)
            | Thrown e => Thrown e
            end
          else Returned ""
      | None => Returned ""
      end
  | None => Returned ""
  end.

(** The five [useState] initialisers; an exception of the date conversion
    leaves the render. *)
Definition initialState (seed : option Task.t) : Outcome State :=
  match initial_dueDate seed with
  | Returned shown =>
      Returned
        {| title := match seed with
                    | Some t => or_else (Task.title t) ""
                    | None => ""
                    end;
           description := match seed with
                          | Some t =>
                              match Task.description t with
                              | Some d => or_else d ""
                              | None => ""
                              end
                          | None => ""
                          end;
           priority := match seed with
                       | Some t => or_else (Task.priority t) "medium"
                       | None => "medium"
                       end;
           dueDate := shown;
           loading := false |}
  | Thrown e => Thrown e
  end.

End TaskForm.

(** ** TaskList (the second source file) *)
Module TaskList.

(** The [useState] cells of the list. *)
Record State : Type := {
  tasks : list Task.t;
  loading : bool;
  showForm : bool;
  editingTask : option Task.t
}.

Definition initial : State :=
  {| tasks := []; loading := true; showForm := false; editingTask := None |}.

Definition setTasks (v : list Task.t) (s : State) : State :=
  {| tasks := v; loading := loading s; showForm := showForm s;
     editingTask := editingTask s |}.

Definition setLoading (v : bool) (s : State) : State :=
  {| tasks := tasks s; loading := v; showForm := showForm s;
     editingTask := editingTask s |}.

Definition setShowForm (v : bool) (s : State) : State :=
  {| tasks := tasks s; loading := loading s; showForm := v;
     editingTask := editingTask s |}.

Definition setEditingTask (v : option Task.t) (s : State) : State :=
  {| tasks := tasks s; loading := loading s; showForm := showForm s;
     editingTask := v |}.

Definition load_failed_toast : Toast.t :=
  {| Toast.variant := Toast.Destructive; Toast.title := "Greška";
     Toast.description := "Nije moguće učitati zadatke" |}.

(** [fetchTasks] (lines 22 to 40), started once by [useEffect]. *)
Definition fetchTasks : Eff State unit :=
  try_catch_finally
    (r <- await (Supabase.from "tasks"
                 |> Supabase.select "*"
                 |> Supabase.order "created_at" false) ;;
     match Supabase.error r with
     | Some e => throw (PostgrestError e)
     | None => modify (setTasks (or_empty (Supabase.data r)))
     end)
    (fun _ => toast load_failed_toast)
    (modify (setLoading false)).

Definition deleted_toast : Toast.t :=
  {| Toast.variant := Toast.Default; Toast.title := "Uspešno!";
     Toast.description := "Zadatak je obrisan" |}.

Definition delete_failed_toast : Toast.t :=
  {| Toast.variant := Toast.Destructive; Toast.title := "Greška";
     Toast.description := "Nije moguće obrisati zadatak" |}.

(** [handleDeleteTask] (lines 46 to 67); [r] is the render whose [tasks]
    the closure holds. *)
Definition handleDeleteTask (r : State) (id : string) : Eff State unit :=
  try_catch
    (a <- await (Supabase.from "tasks"
                 |> Supabase.delete
                 |> Supabase.eq "id" id) ;;
     match Supabase.error a with
     | Some e => throw (PostgrestError e)
     | None =>
         modify (setTasks (filter (fun task => negb (Task.id task =? id)) (tasks r))) ;;;
         toast deleted_toast
     end)
    (fun _ => toast delete_failed_toast).

Definition status_toast : Toast.t :=
  {| Toast.variant := Toast.Default; Toast.title := "Uspešno!";
     Toast.description := "Status zadatka je ažuriran" |}.

Definition status_failed_toast : Toast.t :=
  {| Toast.variant := Toast.Destructive; Toast.title := "Greška";
     Toast.description := "Nije moguće ažurirati status" |}.

(** [handleStatusChange] (lines 69 to 93). *)
Definition handleStatusChange (r : State) (id newStatus : string) : Eff State unit :=
  try_catch
    (a <- await (Supabase.from "tasks"
                 |> Supabase.update_status newStatus
                 |> Supabase.eq "id" id) ;;
     match Supabase.error a with
     | Some e => throw (PostgrestError e)
     | None =>
         modify (setTasks (map (fun task =>
                   if Task.id task =? id then Task.with_status task newStatus else task)
                 (tasks r))) ;;;
         toast status_toast
     end)
    (fun _ => toast status_failed_toast).

(** The four display helpers (lines 95 to 125). *)
Definition getStatusColor (status : string) : string :=
  if status =? "completed" then "bg-green-100 text-green-800"
  else if status =? "in_progress" then "bg-yellow-100 text-yellow-800"
  else "bg-gray-100 text-gray-800".

Definition getPriorityColor (priority : string) : string :=
  if priority =? "high" then "bg-red-100 text-red-800"
  else if priority =? "medium" then "bg-orange-100 text-orange-800"
  else "bg-blue-100 text-blue-800".

Definition getStatusText (status : string) : string :=
  if status =? "completed" then "Završeno"
  else if status =? "in_progress" then "U toku"
  else "Na čekanju".

Definition getPriorityText (priority : string) : string :=
  if priority =? "high" then "Visok"
  else if priority =? "medium" then "Srednji"
  else "Nizak".

(** The [onSave] closure handed to the form (lines 131 to 139), created by
    render [r]. *)
Definition onSave (r : State) (task : Task.t) (s : State) : State :=
  let s1 :=
    match editingTask r with
    | Some _ =>
        setTasks (map (fun t => if Task.id t =? Task.id task then task else t) (tasks r)) s
    | None => setTasks (task :: tasks r) s
    end in
  setEditingTask None (setShowForm false s1).

(** The [onCancel] closure (lines 140 to 143). *)
Definition onCancel (s : State) : State :=
  setEditingTask None (setShowForm false s).

(** The properties of the [<TaskForm>] element (lines 129 to 144). *)
Definition formProps (r : State) : TaskForm.Props State :=
  {| TaskForm.task := editingTask r;
     TaskForm.onSave := onSave r;
     TaskForm.onCancel := onCancel |}.

(** Which of the three returns of the component is taken (lines 127, 148
    and 156). *)
Inductive View : Type := FormView | LoadingView | ListView.

Definition view (s : State) : View :=
  if showForm s || (match editingTask s with Some _ => true | None => false end)
  then FormView
  else if loading s then LoadingView
  else ListView.

(** A status button of a card: its caption and the arguments its click
    passes to [handleStatusChange]. *)
Record StatusButton : Type := {
  caption : string;
  click_id : string;
  click_status : string
}.

(** The status buttons of one card (lines 227 to 256); [{c && x}] renders
    [x] when [c] holds and nothing otherwise. *)
Definition statusButtons (task : Task.t) : list StatusButton :=
  ((if negb (Task.status task =? "completed") then
      (if Task.status task =? "pending" then
         [ {| caption := "Počni"; click_id := Task.id task;
              click_status := "in_progress" |} ]
       else [])
      ++ [ {| caption := "Završi"; click_id := Task.id task;
              click_status := "completed" |} ]
    else [])
   ++ (if Task.status task =? "completed" then
         [ {| caption := "Vrati na čekanje"; click_id := Task.id task;
              click_status := "pending" |} ]
       else []))%list.

(** The cards of the list view, one per task in list order (line 183). *)
Definition cards (s : State) : list (Task.t * list StatusButton) :=
  map (fun task => (task, statusButtons task)) (tasks s).

(** *** The buttons of the list view *)

(** The add button (line 162): [() => setShowForm(true)]. *)
Definition onClick_add : State -> State := setShowForm true.

(** The pencil button of a card (line 199): [() => setEditingTask(task)]. *)
Definition onClick_edit (task : Task.t) : State -> State :=
  setEditingTask (Some task).

(** The bin button of a card (line 206), as created by render [r]:
    [() => handleDeleteTask(task.id)]. *)
Definition onClick_delete (r : State) (task : Task.t) : Eff State unit :=
  handleDeleteTask r (Task.id task).

(** A status button (lines 233, 241 and 251), as created by render [r]. *)
Definition onClick_status (r : State) (button : StatusButton) : Eff State unit :=
  handleStatusChange r (click_id button) (click_status button).

(** The targets offered for a status: those of the buttons of a card whose
    task has it. *)
Definition offered (status : string) : list string :=
  map click_status
    (statusButtons {| Task.id := ""; Task.title := ""; Task.description := None;
                      Task.status := status; Task.priority := "";
                      Task.due_date := None; Task.created_at := "";
                      Task.user_id := "" |}).

(** The form that mounts when the component shows the form view: its
    properties and its initial inputs. *)
Definition mountForm (s : State) : Outcome (State * TaskForm.State) :=
  match TaskForm.initialState (TaskForm.task (formProps s)) with
  | Returned f => Returned (s, f)
  | Thrown e => Thrown e
  end.

End TaskList.

(** ** Notions of the specification

    These follow the words of the specification, not the code, and are what
    the code is compared with. *)

(** White space as [String.prototype.trim] removes it, within the ASCII
    range: tab, line feed, vertical tab, form feed, carriage return, space. *)
Definition is_white_space (c : ascii) : bool :=
  let n := nat_of_ascii c in
  ((9 <=? n)%nat && (n <=? 13)%nat) || (n =? 32)%nat.

Fixpoint drop_white_space (l : list ascii) : list ascii :=
  match l with
  | c :: l' => if is_white_space c then drop_white_space l' else l
  | [] => []
  end.

(** "title (trimmed)": the text without the white space around it. *)
Definition spec_trim (s : string) : string :=
  string_of_list_ascii
    (rev (drop_white_space (rev (drop_white_space (list_ascii_of_string s))))).

(** "title is empty after trim": empty or white space only. *)
Definition spec_blank (s : string) : bool := spec_trim s =? "".

(** "null if empty, otherwise converted to a full timestamp at
    start-of-day". *)
Definition spec_start_of_day (date : string) : option string :=
  if date =? "" then None else Some (date ++ "T00:00:00.000Z").

(** "null if empty, otherwise the text". *)
Definition spec_null_if_empty (text : string) : option string :=
  if text =? "" then None else Some text.

(** The allowed-set of section 4.1: pending to in_progress or completed,
    in_progress to completed, completed to pending. *)
Definition spec_allowed_targets (status : string) : list string :=
  if status =? "pending" then ["in_progress"; "completed"]
  else if status =? "in_progress" then ["completed"]
  else if status =? "completed" then ["pending"]
  else [].

(** "restricted to tasks belonging to the current user": the read carries
    [user_id = current]. *)
Definition spec_restricted_to (user : User.t) (q : Supabase.Query) : bool :=
  Supabase.has_filter "user_id" (User.id user) q.

(** ** The requests of the handlers, written out field by field *)
Module Sent.

Definition load : Supabase.Query :=
  {| Supabase.table := "tasks"; Supabase.verb := Supabase.Select "*";
     Supabase.filters := []; Supabase.ordering := Some ("created_at", false);
     Supabase.returning := false; Supabase.single_row := false |}.

Definition remove (id : string) : Supabase.Query :=
  {| Supabase.table := "tasks"; Supabase.verb := Supabase.Delete;
     Supabase.filters := [("id", id)]; Supabase.ordering := None;
     Supabase.returning := false; Supabase.single_row := false |}.

Definition set_status (id newStatus : string) : Supabase.Query :=
  {| Supabase.table := "tasks"; Supabase.verb := Supabase.UpdateStatus newStatus;
     Supabase.filters := [("id", id)]; Supabase.ordering := None;
     Supabase.returning := false; Supabase.single_row := false |}.

Definition save_existing (id : string) (taskData : TaskData.t) : Supabase.Query :=
  {| Supabase.table := "tasks"; Supabase.verb := Supabase.Update taskData;
     Supabase.filters := [("id", id)]; Supabase.ordering := None;
     Supabase.returning := true; Supabase.single_row := true |}.

Definition save_new (taskData : TaskData.t) (uid : string) : Supabase.Query :=
  {| Supabase.table := "tasks"; Supabase.verb := Supabase.Insert taskData uid;
     Supabase.filters := []; Supabase.ordering := None;
     Supabase.returning := true; Supabase.single_row := true |}.

End Sent.

(** ** Sample data *)
Module Sample.

Definition alice : User.t := {| User.id := "u-alice" |}.

Definition milk : Task.t :=
  {| Task.id := "t-1"; Task.title := "Buy milk"; Task.description := None;
     Task.status := "pending"; Task.priority := "medium"; Task.due_date := None;
     Task.created_at := "2024-03-02T09:00:00.000Z"; Task.user_id := "u-alice" |}.

Definition report : Task.t :=
  {| Task.id := "t-2"; Task.title := "Write report";
     Task.description := Some "quarterly"; Task.status := "in_progress";
     Task.priority := "high"; Task.due_date := Some "2024-03-10T00:00:00.000Z";
     Task.created_at := "2024-03-01T08:30:00.000Z"; Task.user_id := "u-alice" |}.

Definition taxes : Task.t :=
  {| Task.id := "t-3"; Task.title := "File taxes"; Task.description := None;
     Task.status := "completed"; Task.priority := "low"; Task.due_date := None;
     Task.created_at := "2024-02-20T12:00:00.000Z"; Task.user_id := "u-alice" |}.

(** The record the store hands back for a write that asks for the row. *)
Definition stored (q : Supabase.Query) : Task.t :=
  match Supabase.verb q with
  | Supabase.Insert row uid =>
      {| Task.id := "t-9"; Task.title := TaskData.title row;
         Task.description := TaskData.description row; Task.status := "pending";
         Task.priority := TaskData.priority row;
         Task.due_date := TaskData.due_date row;
         Task.created_at := "2024-03-03T10:00:00.000Z"; Task.user_id := uid |}
  | Supabase.Update patch =>
      {| Task.id := "t-2"; Task.title := TaskData.title patch;
         Task.description := TaskData.description patch;
         Task.status := "in_progress"; Task.priority := TaskData.priority patch;
         Task.due_date := TaskData.due_date patch;
         Task.created_at := "2024-03-01T08:30:00.000Z"; Task.user_id := "u-alice" |}
  | _ => milk
  end.

(** A store that accepts every request, with alice signed in. *)
Definition accepting : Backend :=
  {| auth_user := Some alice;
     answer := fun q =>
       {| Supabase.data :=
            match Supabase.verb q with
            | Supabase.Select _ => Some [milk; report; taxes]
            | _ => None
            end;
          Supabase.error := None |};
     answer_single := fun q => Supabase.Success (stored q) |}.

(** A task of another account. *)
Definition payroll : Task.t :=
  {| Task.id := "t-7"; Task.title := "Run payroll"; Task.description := None;
     Task.status := "pending"; Task.priority := "high"; Task.due_date := None;
     Task.created_at := "2024-03-02T11:00:00.000Z"; Task.user_id := "u-bob" |}.

Definition column (name : string) (task : Task.t) : string :=
  if name =? "id" then Task.id task
  else if name =? "user_id" then Task.user_id task
  else "".

(** A store that answers a read with the rows of its table that pass the
    filters of the request, and applies nothing the request does not
    carry; its table is kept newest first. *)
Definition shared : Backend :=
  {| auth_user := Some alice;
     answer := fun q =>
       {| Supabase.data :=
            Some (filter (fun task =>
                    forallb (fun f => column (fst f) task =? snd f) (Supabase.filters q))
                  [payroll; milk; report; taxes]);
          Supabase.error := None |};
     answer_single := fun q => Supabase.Success (stored q) |}.

Definition call_bank : TaskData.t :=
  {| TaskData.title := "Call bank"; TaskData.description := None;
     TaskData.priority := "medium"; TaskData.due_date := None |}.

(** A task whose due date the store prints with microseconds. *)
Definition audit : Task.t :=
  {| Task.id := "t-5"; Task.title := "Prepare audit"; Task.description := Some "";
     Task.status := "pending"; Task.priority := "low";
     Task.due_date := Some "2024-03-10T23:30:00.123456+00:00";
     Task.created_at := "2024-02-25T07:45:00.000Z"; Task.user_id := "u-alice" |}.

(** A store that rejects every request. *)
Definition rejecting : Backend :=
  {| auth_user := Some alice;
     answer := fun _ => {| Supabase.data := None; Supabase.error := Some "denied" |};
     answer_single := fun _ => Supabase.Failure "denied" |}.

(** A store with nobody signed in. *)
Definition signed_out : Backend :=
  {| auth_user := None;
     answer := answer accepting;
     answer_single := answer_single accepting |}.

(** The list view over three tasks. *)
Definition listing : TaskList.State :=
  {| TaskList.tasks := [milk; report; taxes]; TaskList.loading := false;
     TaskList.showForm := false; TaskList.editingTask := None |}.

(** The list component while the form is open for a new task. *)
Definition creating : TaskList.State :=
  {| TaskList.tasks := [milk; report; taxes]; TaskList.loading := false;
     TaskList.showForm := true; TaskList.editingTask := None |}.

(** The list component while the form is open on [report]. *)
Definition editing : TaskList.State :=
  {| TaskList.tasks := [milk; report; taxes]; TaskList.loading := false;
     TaskList.showForm := false; TaskList.editingTask := Some report |}.

Definition form (title dueDate : string) : TaskForm.State :=
  {| TaskForm.title := title; TaskForm.description := "";
     TaskForm.priority := "medium"; TaskForm.dueDate := dueDate;
     TaskForm.loading := false |}.

End Sample.

(** ** Facts about lists of tasks *)
Section TaskLists.

Implicit Types (l : list Task.t) (i : string).

(** Dropping the entries with identifier [i] from a list that has none. *)
Lemma filter_absent l i :
  ~ In i (map Task.id l) ->
  filter (fun task => negb (Task.id task =? i)) l = l.
Proof.
  induction l as [|t l IH]; intros Hnot; [reflexivity|].
  cbn in *. destruct (Task.id t =? i) eqn:E.
  - apply String.eqb_eq in E. tauto.
  - cbn. f_equal. apply IH. tauto.
Qed.

Lemma filter_removes l i :
  ~ In i (map Task.id (filter (fun task => negb (Task.id task =? i)) l)).
Proof.
  rewrite in_map_iff. intros (t & Hid & Hin).
  apply filter_In in Hin as [_ Hneq].
  apply String.eqb_eq in Hid. rewrite Hid in Hneq. discriminate.
Qed.

(** With unique identifiers the filter takes out one entry and keeps the
    rest in place. *)
Lemma filter_unique l t :
  NoDup (map Task.id l) -> In t l ->
  exists l1 l2,
    l = (l1 ++ t :: l2)%list /\
    filter (fun task => negb (Task.id task =? Task.id t)) l = (l1 ++ l2)%list.
Proof.
  induction l as [|a l IH]; intros Hnd Hin; [contradiction|].
  cbn in Hnd. inversion Hnd as [|? ? Hfresh Hnd']; subst.
  destruct Hin as [->|Hin].
  - exists [], l. split; [reflexivity|].
    cbn. rewrite String.eqb_refl. cbn. now apply filter_absent.
  - destruct (IH Hnd' Hin) as (l1 & l2 & Hl & Hf).
    exists (a :: l1), l2. split; [cbn; now rewrite Hl|].
    cbn. destruct (Task.id a =? Task.id t) eqn:E.
    + apply String.eqb_eq in E. exfalso. apply Hfresh. rewrite E.
      now apply in_map.
    + cbn. now rewrite Hf.
Qed.

(** Replacing by identifier keeps every identifier where it was. *)
Lemma replace_keeps_ids l (task : Task.t) :
  map Task.id (map (fun t => if Task.id t =? Task.id task then task else t) l)
  = map Task.id l.
Proof.
  rewrite map_map. apply map_ext. intros t.
  destruct (Task.id t =? Task.id task) eqn:E; [|reflexivity].
  apply String.eqb_eq in E. now symmetry.
Qed.

Lemma replace_absent l (task : Task.t) :
  (forall t, In t l -> Task.id t <> Task.id task) ->
  map (fun t => if Task.id t =? Task.id task then task else t) l = l.
Proof.
  intros Habs. rewrite <- (map_id l) at 2. apply map_ext_in. intros t Hin.
  destruct (Task.id t =? Task.id task) eqn:E; [|reflexivity].
  apply String.eqb_eq in E. now apply Habs in Hin.
Qed.

End TaskLists.

(** ** The display helpers and the status buttons *)
Section Display.

Import TaskList.

(** C9: the four display helpers (status to label, status to colour,
    priority to label, priority to colour) are total functions, and for an
    input outside the recognised values the status helpers return what
    they return for pending and the priority helpers what they return for
    low. *)
Theorem display_helpers_fall_back (status priority : string) :
  Task.is_status status = false ->
  Task.is_priority priority = false ->
  getStatusText status = getStatusText "pending" /\
  getStatusColor status = getStatusColor "pending" /\
  getPriorityText priority = getPriorityText "low" /\
  getPriorityColor priority = getPriorityColor "low".
Proof.
  unfold Task.is_status, Task.is_priority. intros Hs Hp.
  apply orb_false_elim in Hs as [Hs Hc]. apply orb_false_elim in Hs as [_ Hi].
  apply orb_false_elim in Hp as [Hp Hh]. apply orb_false_elim in Hp as [_ Hm].
  unfold getStatusText, getStatusColor, getPriorityText, getPriorityColor.
  rewrite Hc, Hi, Hh, Hm. repeat split.
Qed.

Lemma display_helpers_fall_back_witness :
  getStatusText "archived" = "Na čekanju" /\
  getStatusColor "archived" = "bg-gray-100 text-gray-800" /\
  getPriorityText "urgent" = "Nizak" /\
  getPriorityColor "urgent" = "bg-blue-100 text-blue-800".
Proof.
  exact (display_helpers_fall_back "archived" "urgent" eq_refl eq_refl).
Defined.

Lemma status_cases (s : string) :
  Task.is_status s = true -> s = "pending" \/ s = "in_progress" \/ s = "completed".
Proof.
  unfold Task.is_status. intros H.
  apply orb_prop in H as [H|H]; [apply orb_prop in H as [H|H]|];
    apply String.eqb_eq in H; auto.
Qed.

(** C4: for every task of the rendered list, the targets of the status
    buttons on its card are the allowed set of its current status (from
    pending: in_progress and completed; from in_progress: completed; from
    completed: pending), each button acts on that task, and nothing else
    is offered. *)
Theorem status_buttons_offer_allowed_set
    (s : State) (task : Task.t) (buttons : list StatusButton) :
  In (task, buttons) (cards s) ->
  Task.is_status (Task.status task) = true ->
  map click_status buttons = spec_allowed_targets (Task.status task) /\
  Forall (fun b => click_id b = Task.id task) buttons.
Proof.
  unfold cards. intros Hin Hst.
  apply in_map_iff in Hin as (t & [= -> <-] & _).
  unfold statusButtons, spec_allowed_targets.
  destruct (status_cases _ Hst) as [E|[E|E]]; rewrite E; cbn;
    split; try reflexivity; repeat constructor.
Qed.

Lemma status_buttons_offer_allowed_set_witness :
  map click_status (statusButtons Sample.milk) = ["in_progress"; "completed"] /\
  Forall (fun b => click_id b = "t-1") (statusButtons Sample.milk).
Proof.
  apply (status_buttons_offer_allowed_set Sample.listing Sample.milk).
  - cbn. left. reflexivity.
  - reflexivity.
Defined.

End Display.

(** ** The list component *)

(** Unfold the handler monad down to the run record. *)
Ltac run_handler :=
  unfold try_catch_finally, try_catch, bind, await, await_single, getUser,
    toast, emit, modify, throw, lift, ret; cbn.

Section ListComponent.

Import TaskList.

(** C3, as the code has it: loading sends one read of the tasks table,
    all columns, ordered by created_at descending and with no filter (the
    request names no user); when the answer has no error the local list
    becomes the rows of the answer (the empty list for a null result);
    when it has one the local list is the one before, and one
    load-failure notification is shown; the loading flag is false after
    either. *)
Theorem fetchTasks_replaces_or_keeps (b : Backend) (s : State) :
  let run := fetchTasks b s in
  requests (trace run) = [Sent.load] /\
  Supabase.filters Sent.load = [] /\
  tasks (final run) =
    match Supabase.error (answer b Sent.load) with
    | None => or_empty (Supabase.data (answer b Sent.load))
    | Some _ => tasks s
    end /\
  toasts (trace run) =
    match Supabase.error (answer b Sent.load) with
    | None => []
    | Some _ => [load_failed_toast]
    end /\
  loading (final run) = false /\
  showForm (final run) = showForm s /\
  editingTask (final run) = editingTask s /\
  outcome run = Returned tt.
Proof.
  unfold fetchTasks.
  change (Supabase.order "created_at" false (Supabase.select "*" (Supabase.from "tasks")))
    with Sent.load.
  run_handler.
  destruct (Supabase.error (answer b Sent.load)); cbn; repeat split.
Qed.

(** C5: a status change on a task of the list sends one update of the
    status alone; when it succeeds the list has the same length, every
    entry with that identifier has the new status and all its other fields
    as before, and every other entry is as before; when it fails the list
    is unchanged. *)
Theorem status_change_patches_status_only
    (b : Backend) (r : State) (id newStatus : string) :
  In id (map Task.id (tasks r)) ->
  let run := handleStatusChange r id newStatus b r in
  requests (trace run) = [Sent.set_status id newStatus] /\
  (Supabase.error (answer b (Sent.set_status id newStatus)) = None ->
     length (tasks (final run)) = length (tasks r) /\
     (exists t', In t' (tasks (final run)) /\ Task.id t' = id /\
                 Task.status t' = newStatus) /\
     forall n t, nth_error (tasks r) n = Some t ->
       exists t', nth_error (tasks (final run)) n = Some t' /\
         (Task.id t = id ->
            Task.status t' = newStatus /\
            Task.id t' = Task.id t /\ Task.title t' = Task.title t /\
            Task.description t' = Task.description t /\
            Task.priority t' = Task.priority t /\
            Task.due_date t' = Task.due_date t /\
            Task.created_at t' = Task.created_at t /\
            Task.user_id t' = Task.user_id t) /\
         (Task.id t <> id -> t' = t)) /\
  (Supabase.error (answer b (Sent.set_status id newStatus)) <> None ->
     final run = r).
Proof.
  intros Hin. unfold handleStatusChange.
  change (Supabase.eq "id" id (Supabase.update_status newStatus (Supabase.from "tasks")))
    with (Sent.set_status id newStatus).
  run_handler.
  destruct (Supabase.error (answer b (Sent.set_status id newStatus))) as [e|]; cbn.
  - split; [reflexivity|]. split; [discriminate|]. intros _. now destruct r.
  - split; [reflexivity|]. split; [|congruence]. intros _.
    split; [apply length_map|]. split.
    + apply in_map_iff in Hin as (t & Hid & Ht).
      exists (Task.with_status t newStatus). split.
      * apply in_map_iff. exists t. split; [|assumption].
        apply String.eqb_eq in Hid. now rewrite Hid.
      * split; [exact Hid|reflexivity].
    + intros n t Hn.
      eexists. split; [apply map_nth_error; exact Hn|]. cbn.
      destruct (Task.id t =? id) eqn:E.
      * split; [intros _; repeat split|].
        apply String.eqb_eq in E. congruence.
      * split; [|reflexivity]. apply String.eqb_neq in E. congruence.
Qed.

Lemma status_change_patches_status_only_witness :
  let run := handleStatusChange Sample.listing "t-2" "completed"
               Sample.accepting Sample.listing in
  let run' := handleStatusChange Sample.listing "t-2" "completed"
                Sample.rejecting Sample.listing in
  (exists t', nth_error (tasks (final run)) 1 = Some t' /\
              Task.status t' = "completed" /\ Task.title t' = "Write report") /\
  final run' = Sample.listing.
Proof.
  assert (Hin : In "t-2" (map Task.id (tasks Sample.listing)))
    by (cbn; right; left; reflexivity).
  split.
  - destruct (status_change_patches_status_only Sample.accepting Sample.listing
                "t-2" "completed" Hin) as (_ & Hok & _).
    destruct (Hok eq_refl) as (_ & _ & Hframe).
    destruct (Hframe 1 Sample.report eq_refl) as (t' & Hn & Heq & _).
    exists t'. split; [exact Hn|].
    destruct (Heq eq_refl) as (Hs & _ & Ht & _). split; [exact Hs|exact Ht].
  - destruct (status_change_patches_status_only Sample.rejecting Sample.listing
                "t-2" "completed" Hin) as (_ & _ & Hfail).
    apply Hfail. discriminate.
Defined.

End ListComponent.

Section ListDelete.

Import TaskList.

(** C6: on a list with unique identifiers, a delete sends one remove
    request for the identifier; when it succeeds the one entry with that
    identifier leaves the list and the others stay in order (nothing
    leaves when no entry has it); when it fails the list is unchanged; and
    a second delete of the same identifier after a successful one leaves
    the list as the first left it, whatever the store answers. *)
Theorem delete_removes_exactly_one (b : Backend) (r : State) (id : string) :
  NoDup (map Task.id (tasks r)) ->
  let run := handleDeleteTask r id b r in
  requests (trace run) = [Sent.remove id] /\
  (Supabase.error (answer b (Sent.remove id)) = None ->
     (forall t, In t (tasks r) -> Task.id t = id ->
        exists l1 l2, tasks r = (l1 ++ t :: l2)%list /\
                      tasks (final run) = (l1 ++ l2)%list) /\
     (~ In id (map Task.id (tasks r)) -> tasks (final run) = tasks r) /\
     ~ In id (map Task.id (tasks (final run))) /\
     (forall b', tasks (final (handleDeleteTask (final run) id b' (final run)))
                 = tasks (final run))) /\
  (Supabase.error (answer b (Sent.remove id)) <> None -> final run = r).
Proof.
  intros Hnd. unfold handleDeleteTask.
  change (Supabase.eq "id" id (Supabase.delete (Supabase.from "tasks")))
    with (Sent.remove id).
  run_handler.
  destruct (Supabase.error (answer b (Sent.remove id))) as [e|]; cbn.
  - split; [reflexivity|]. split; [discriminate|]. intros _. now destruct r.
  - split; [reflexivity|]. split; [|congruence]. intros _.
    split; [|split; [|split]].
    + intros t Hin <-. now apply filter_unique.
    + apply filter_absent.
    + apply filter_removes.
    + intros b'. destruct (Supabase.error (answer b' (Sent.remove id))); cbn;
        [reflexivity|].
      apply filter_absent, filter_removes.
Qed.

Lemma delete_removes_exactly_one_witness :
  let run := handleDeleteTask Sample.listing "t-2" Sample.accepting Sample.listing in
  let run' := handleDeleteTask Sample.listing "t-2" Sample.rejecting Sample.listing in
  (exists l1 l2, tasks Sample.listing = (l1 ++ Sample.report :: l2)%list /\
                 tasks (final run) = (l1 ++ l2)%list) /\
  final run' = Sample.listing.
Proof.
  assert (Hnd : NoDup (map Task.id (tasks Sample.listing))).
  { cbn. repeat constructor; cbn; intuition discriminate. }
  split.
  - destruct (delete_removes_exactly_one Sample.accepting Sample.listing "t-2" Hnd)
      as (_ & Hok & _).
    destruct (Hok eq_refl) as (Hone & _).
    apply Hone; [cbn; right; left; reflexivity|reflexivity].
  - destruct (delete_removes_exactly_one Sample.rejecting Sample.listing "t-2" Hnd)
      as (_ & _ & Hfail).
    apply Hfail. discriminate.
Defined.

End ListDelete.

Section ListSave.

Import TaskList.

(** C7: when the form calls [onSave] with the saved record, a create
    session puts the record in front of the list and keeps the existing
    entries in order; an update session puts the record in the place of
    each entry with its identifier, so the length and the identifiers of
    the list stay as they were and nothing is added; in both cases the
    form view is left. *)
Theorem onSave_prepends_or_replaces (r s : State) (task : Task.t) :
  let s' := onSave r task s in
  showForm s' = false /\ editingTask s' = None /\ view s' <> FormView /\
  (editingTask r = None -> tasks s' = task :: tasks r) /\
  (editingTask r <> None ->
     length (tasks s') = length (tasks r) /\
     map Task.id (tasks s') = map Task.id (tasks r) /\
     forall n t, nth_error (tasks r) n = Some t ->
       (Task.id t = Task.id task -> nth_error (tasks s') n = Some task) /\
       (Task.id t <> Task.id task -> nth_error (tasks s') n = Some t)).
Proof.
  cbv zeta. unfold onSave.
  split; [reflexivity|]. split; [reflexivity|].
  split; [unfold view; cbn; destruct (loading _); discriminate|].
  destruct (editingTask r) as [e|]; cbn.
  - split; [discriminate|]. intros _.
    split; [apply length_map|]. split; [apply replace_keeps_ids|].
    intros n t Hn.
    pose proof (map_nth_error
      (fun t0 => if Task.id t0 =? Task.id task then task else t0) n (tasks r) Hn) as Hm.
    cbn in Hm. rewrite Hm.
    destruct (Task.id t =? Task.id task) eqn:E.
    + apply String.eqb_eq in E. split; [reflexivity|congruence].
    + apply String.eqb_neq in E. split; [congruence|reflexivity].
  - split; [reflexivity|]. congruence.
Qed.

Lemma onSave_prepends_or_replaces_witness :
  tasks (onSave Sample.creating (Sample.stored (Sent.save_new Sample.call_bank "u-alice"))
           Sample.creating)
  = Sample.stored (Sent.save_new Sample.call_bank "u-alice")
    :: tasks Sample.creating /\
  map Task.id (tasks (onSave Sample.editing (Task.with_status Sample.report "completed")
                        Sample.editing))
  = ["t-1"; "t-2"; "t-3"].
Proof.
  split.
  - apply (onSave_prepends_or_replaces Sample.creating Sample.creating). reflexivity.
  - destruct (onSave_prepends_or_replaces Sample.editing Sample.editing
                (Task.with_status Sample.report "completed"))
      as (_ & _ & _ & _ & Hupd).
    destruct Hupd as (_ & Hids & _); [discriminate|]. exact Hids.
Defined.

(** C10: when [onSave] is called in an update session with a record whose
    identifier no entry of the list has, the list is left as it was: same
    length, same entries, nothing appended and no error. *)
Theorem onSave_unknown_id_keeps_list (r s : State) (task : Task.t) :
  editingTask r <> None ->
  (forall t, In t (tasks r) -> Task.id t <> Task.id task) ->
  tasks (onSave r task s) = tasks r /\
  length (tasks (onSave r task s)) = length (tasks r).
Proof.
  intros Hedit Habs. unfold onSave.
  destruct (editingTask r); [|congruence]. cbn.
  rewrite (replace_absent _ _ Habs). split; reflexivity.
Qed.

Lemma onSave_unknown_id_keeps_list_witness :
  tasks (onSave Sample.editing (Sample.stored (Sent.save_new Sample.call_bank "u-alice"))
           Sample.editing)
  = [Sample.milk; Sample.report; Sample.taxes].
Proof.
  apply (onSave_unknown_id_keeps_list Sample.editing Sample.editing).
  - discriminate.
  - cbn. intros t [<-|[<-|[<-|[]]]]; discriminate.
Defined.

End ListSave.

(** ** Dates of the date input *)
Section Dates.

Import JSDate.
Local Open Scope nat_scope.

Lemma digit_round_trip (c : ascii) (v : nat) :
  digit_value c = Some v -> v < 10 /\ digit_char v = c.
Proof.
  unfold digit_value, digit_char.
  destruct ((48 <=? nat_of_ascii c) && (nat_of_ascii c <=? 57))%bool eqn:E;
    [|discriminate].
  intros [= <-]. apply andb_prop in E as [Hlo Hhi].
  apply Nat.leb_le in Hlo, Hhi. split; [lia|].
  replace (48 + (nat_of_ascii c - 48)) with (nat_of_ascii c) by lia.
  apply ascii_nat_embedding.
Qed.

Lemma pad2_digits (a b : nat) :
  a < 10 -> b < 10 ->
  pad2 (10 * a + b) = String (digit_char a) (String (digit_char b) "").
Proof.
  intros Ha Hb. unfold pad2, digit_string.
  assert (E1 : (10 * a + b) / 10 = a)
    by (symmetry; apply Nat.div_unique with (r := b); lia).
  assert (E0 : (10 * a + b) mod 10 = b)
    by (symmetry; apply Nat.mod_unique with (q := a); lia).
  rewrite E1, E0, (Nat.mod_small a 10) by lia. reflexivity.
Qed.

Lemma pad4_digits (a b c d : nat) :
  a < 10 -> b < 10 -> c < 10 -> d < 10 ->
  pad4 (1000 * a + 100 * b + (10 * c + d))
  = String (digit_char a) (String (digit_char b)
      (String (digit_char c) (String (digit_char d) ""))).
Proof.
  intros Ha Hb Hc Hd. unfold pad4, pad3, pad2, digit_string.
  set (n := 1000 * a + 100 * b + (10 * c + d)).
  assert (E3 : n / 1000 = a)
    by (symmetry; apply Nat.div_unique with (r := 100 * b + (10 * c + d)); lia).
  assert (E2 : n / 100 = 10 * a + b)
    by (symmetry; apply Nat.div_unique with (r := 10 * c + d); lia).
  assert (E1 : n / 10 = 100 * a + 10 * b + c)
    by (symmetry; apply Nat.div_unique with (r := d); lia).
  assert (E0 : n mod 10 = d)
    by (symmetry; apply Nat.mod_unique with (q := 100 * a + 10 * b + c); lia).
  rewrite E3, E2, E1, E0, (Nat.mod_small a 10) by lia.
  replace ((10 * a + b) mod 10) with b
    by (apply Nat.mod_unique with (q := a); lia).
  replace ((100 * a + 10 * b + c) mod 10) with c
    by (apply Nat.mod_unique with (q := 10 * a + b); lia).
  reflexivity.
Qed.

Lemma digits2_print (c1 c0 : ascii) (n : nat) :
  digits2 c1 c0 = Some n -> pad2 n = String c1 (String c0 "").
Proof.
  unfold digits2.
  destruct (digit_value c1) as [a|] eqn:E1; [|discriminate].
  destruct (digit_value c0) as [b|] eqn:E0; [|discriminate].
  intros [= <-].
  apply digit_round_trip in E1 as [Ha <-]. apply digit_round_trip in E0 as [Hb <-].
  now apply pad2_digits.
Qed.

Lemma digits4_print (c3 c2 c1 c0 : ascii) (n : nat) :
  digits4 c3 c2 c1 c0 = Some n ->
  pad4 n = String c3 (String c2 (String c1 (String c0 ""))).
Proof.
  unfold digits4, digits2.
  destruct (digit_value c3) as [a|] eqn:E3; [|discriminate].
  destruct (digit_value c2) as [b|] eqn:E2; [|discriminate].
  destruct (digit_value c1) as [c|] eqn:E1; [|discriminate].
  destruct (digit_value c0) as [d|] eqn:E0; [|discriminate].
  intros [= <-].
  apply digit_round_trip in E3 as [Ha <-]. apply digit_round_trip in E2 as [Hb <-].
  apply digit_round_trip in E1 as [Hc <-]. apply digit_round_trip in E0 as [Hd <-].
  now apply pad4_digits.
Qed.

(** A date of the date input becomes the timestamp of its midnight, UTC:
    the same date followed by a zero time of day. *)
Lemma toISOString_of_date_only (s : string) :
  is_date_input_value s = true ->
  toISOString (new_Date s) = Returned (s ++ "T00:00:00.000Z")%string /\
  s <> ""%string.
Proof.
  unfold is_date_input_value, new_Date.
  destruct (parse_date_only s) as [[[y m] d]|] eqn:Ep; [intros _|discriminate].
  unfold parse_date_only in Ep.
  pose proof (string_of_list_ascii_of_string s) as Hs.
  destruct (list_ascii_of_string s)
    as [|y3 [|y2 [|y1 [|y0 [|h1 [|m1 [|m0 [|h2 [|d1 [|d0 [|x l]]]]]]]]]]];
    try discriminate.
  cbn in Hs. subst s.
  destruct (Ascii.eqb h1 "-" && Ascii.eqb h2 "-")%bool eqn:Eh; [|discriminate].
  apply andb_prop in Eh as [H1 H2]. apply Ascii.eqb_eq in H1, H2. subst h1 h2.
  destruct (digits4 y3 y2 y1 y0) as [y'|] eqn:Ey; [|discriminate].
  destruct (digits2 m1 m0) as [m'|] eqn:Em; [|discriminate].
  destruct (digits2 d1 d0) as [d'|] eqn:Ed; [|discriminate].
  destruct (valid_day y' m' d'); [|discriminate].
  injection Ep as <- <- <-.
  split; [|discriminate].
  unfold toISOString, year_string.
  cbn [year month day hours minutes seconds milliseconds].
  rewrite (digits4_print _ _ _ _ _ Ey), (digits2_print _ _ _ Em), (digits2_print _ _ _ Ed).
  reflexivity.
Qed.

End Dates.

(** ** The form component *)
Section FormComponent.

Import TaskForm.

Context {P : Type}.
Implicit Types (props : Props P) (r : State) (b : Backend) (s : P * State).

(** What the entered values become in [taskData]. *)
Lemma buildTaskData_entered r :
  dueDate r = "" \/ JSDate.is_date_input_value (dueDate r) = true ->
  buildTaskData r =
    Returned {| TaskData.title := title r;
                TaskData.description := spec_null_if_empty (description r);
                TaskData.priority := priority r;
                TaskData.due_date := spec_start_of_day (dueDate r) |}.
Proof.
  intros Hdate. unfold buildTaskData, due_date_of, spec_start_of_day,
    spec_null_if_empty, or_null, truthy.
  destruct Hdate as [->|Hdate].
  - cbn. now destruct (description r =? "").
  - destruct (toISOString_of_date_only _ Hdate) as [-> Hne].
    apply String.eqb_neq in Hne. rewrite Hne. cbn.
    now destruct (description r =? "").
Qed.

(** The handler never writes the four inputs, and leaves [loading] false. *)
Lemma handleSubmit_keeps_fields props r b s :
  fields (snd (final (handleSubmit props r b s))) = fields (snd s) /\
  loading (snd (final (handleSubmit props r b s))) = false /\
  outcome (handleSubmit props r b s) = Returned tt.
Proof.
  unfold handleSubmit. run_handler.
  destruct (buildTaskData r) as [d|e]; cbn; [|repeat split].
  destruct (task props) as [t|]; cbn.
  - destruct (answer_single b _); cbn; repeat split.
  - destruct (auth_user b) as [u|]; cbn; [|repeat split].
    destruct (answer_single b _); cbn; repeat split.
Qed.

(** C1, as the code has it: a form whose title is the empty string is not
    submitted (the title input is required), so no remote command is
    issued, nothing is notified, and the task list and the form are as
    before.  The handler has no title check of its own and nothing trims
    the title: a title of white space only is submitted. *)
Theorem empty_title_is_not_submitted props b s :
  title (snd s) = "" ->
  trace (submit props b s) = [] /\
  final (submit props b s) = s /\
  outcome (submit props b s) = Returned tt.
Proof.
  intros Htitle. unfold submit, truthy. rewrite Htitle. cbn.
  rewrite orb_true_r. repeat split.
Qed.


(** C8: a create with nobody signed in sends no insert, does not call
    [onSave], shows the one notification worded for a failed create, and
    leaves the task list and the four inputs as they were; and whenever
    every request the handler sent was refused, [onSave] is not called,
    the failure notification is shown, and the task list and the inputs
    are as they were. *)
Theorem failed_submit_keeps_form props r b s :
  let run := handleSubmit props r b s in
  (task props = None -> auth_user b = None ->
     requests (trace run) = [] /\
     saved (trace run) = [] /\
     toasts (trace run) = [failed_toast props] /\
     Toast.description (failed_toast props) = "Nije moguće kreirati zadatak" /\
     fst (final run) = fst s /\
     fields (snd (final run)) = fields (snd s)) /\
  ((forall q, In q (requests (trace run)) ->
      exists e, answer_single b q = Supabase.Failure e) ->
     saved (trace run) = [] /\
     toasts (trace run) = [failed_toast props] /\
     fst (final run) = fst s /\
     fields (snd (final run)) = fields (snd s)).
Proof.
  cbv zeta. split.
  - intros Hcreate Hnobody.
    pose proof (handleSubmit_keeps_fields props r b s) as (Hf & _).
    split; [|split; [|split; [|split; [|split; [|exact Hf]]]]].
    all: unfold handleSubmit, failed_toast; run_handler; rewrite ?Hcreate.
    all: destruct (buildTaskData r) as [d|e]; cbn; rewrite ?Hcreate; cbn;
      rewrite ?Hnobody; cbn; reflexivity.
  - pose proof (handleSubmit_keeps_fields props r b s) as (Hf & _).
    revert Hf. unfold handleSubmit. run_handler.
    destruct (buildTaskData r) as [d|e]; cbn; [|intros Hf _; repeat split; exact Hf].
    destruct (task props) as [t|]; cbn.
    + destruct (answer_single b _) as [row|msg] eqn:Ea; cbn; intros Hf Hall.
      * destruct (Hall _ (or_introl eq_refl)) as [e He]. congruence.
      * repeat split; exact Hf.
    + destruct (auth_user b) as [u|]; cbn; [|intros Hf _; repeat split; exact Hf].
      destruct (answer_single b _) as [row|msg] eqn:Ea; cbn; intros Hf Hall.
      * destruct (Hall _ (or_introl eq_refl)) as [e He]. congruence.
      * repeat split; exact Hf.
Qed.

End FormComponent.

(** ** The components on the sample data *)
Section OnSamples.

Import TaskForm.

Lemma empty_title_is_not_submitted_witness :
  let s := (Sample.creating, Sample.form "" "") in
  trace (submit (TaskList.formProps Sample.creating) Sample.accepting s) = [] /\
  final (submit (TaskList.formProps Sample.creating) Sample.accepting s) = s /\
  outcome (submit (TaskList.formProps Sample.creating) Sample.accepting s) = Returned tt.
Proof.
  apply (empty_title_is_not_submitted (TaskList.formProps Sample.creating)
           Sample.accepting (Sample.creating, Sample.form "" "")).
  reflexivity.
Defined.

(** C1 fails as stated: with a title of one space the form is submitted,
    an insert is sent, and the saved record enters the task list. *)
Lemma blank_title_is_submitted :
  let s := (Sample.creating, Sample.form " " "") in
  let run := submit (TaskList.formProps Sample.creating) Sample.accepting s in
  spec_blank (title (snd s)) = true /\
  requests (trace run) =
    [Sent.save_new {| TaskData.title := " "; TaskData.description := None;
                      TaskData.priority := "medium"; TaskData.due_date := None |}
                   "u-alice"] /\
  length (TaskList.tasks (fst (final run))) = 4 /\
  length (TaskList.tasks (fst s)) = 3 /\
  fst (final run) <> fst s.
Proof.
  cbv zeta. repeat split. vm_compute. discriminate.
Qed.



Lemma failed_submit_keeps_form_witness :
  let s := (Sample.creating, Sample.form "Call bank" "") in
  let run := handleSubmit (TaskList.formProps Sample.creating) (snd s)
               Sample.signed_out s in
  let s' := (Sample.editing, Sample.form "Write the report" "2024-03-12") in
  let run' := handleSubmit (TaskList.formProps Sample.editing) (snd s')
                Sample.rejecting s' in
  (requests (trace run) = [] /\
   saved (trace run) = [] /\
   toasts (trace run) = [failed_toast (TaskList.formProps Sample.creating)] /\
   Toast.description (failed_toast (TaskList.formProps Sample.creating))
   = "Nije moguće kreirati zadatak" /\
   fst (final run) = fst s /\
   fields (snd (final run)) = fields (snd s)) /\
  (saved (trace run') = [] /\
   toasts (trace run') = [failed_toast (TaskList.formProps Sample.editing)] /\
   fst (final run') = fst s' /\
   fields (snd (final run')) = fields (snd s')).
Proof.
  cbv zeta. split.
  - apply (failed_submit_keeps_form (TaskList.formProps Sample.creating)
             (Sample.form "Call bank" "") Sample.signed_out
             (Sample.creating, Sample.form "Call bank" "")); reflexivity.
  - apply (failed_submit_keeps_form (TaskList.formProps Sample.editing)
             (Sample.form "Write the report" "2024-03-12") Sample.rejecting
             (Sample.editing, Sample.form "Write the report" "2024-03-12")).
    intros q _. exists "denied". reflexivity.
Defined.

(** C3 fails as stated: with alice signed in, the read that loading sends
    has no filter, so it is not restricted to her tasks; a store that
    applies only the filters it is sent answers with a task of another
    account, and that task enters the local list. *)
Lemma load_request_names_no_user :
  let run := TaskList.fetchTasks Sample.shared TaskList.initial in
  auth_user Sample.shared = Some Sample.alice /\
  requests (trace run) = [Sent.load] /\
  spec_restricted_to Sample.alice Sent.load = false /\
  Supabase.filters_on "user_id" Sent.load = false /\
  In Sample.payroll (TaskList.tasks (final run)) /\
  Task.user_id Sample.payroll <> User.id Sample.alice.
Proof.
  cbv zeta. repeat split.
  - cbn. left. reflexivity.
  - discriminate.
Qed.

End OnSamples.

(** ** Further properties of the list handlers *)
Section ListHandlers.

Import TaskList.

(** A delete, from any render and on any current state, sends its one
    request, lets no exception out, shows exactly one notification (the
    success one when the store reports no error, the failure one
    otherwise), never calls back into the form, never makes the list
    longer than the one it was rendered with, and leaves the loading flag,
    the form flag and the edited task alone. *)
Theorem delete_settles_with_one_toast (r s : State) (id : string) (b : Backend) :
  let run := handleDeleteTask r id b s in
  outcome run = Returned tt /\
  toasts (trace run) =
    [match Supabase.error (answer b (Sent.remove id)) with
     | None => deleted_toast
     | Some _ => delete_failed_toast
     end] /\
  saved (trace run) = [] /\
  (Supabase.error (answer b (Sent.remove id)) = None ->
     length (tasks (final run)) <= length (tasks r)) /\
  loading (final run) = loading s /\
  showForm (final run) = showForm s /\
  editingTask (final run) = editingTask s.
Proof.
  cbv zeta. unfold handleDeleteTask.
  change (Supabase.eq "id" id (Supabase.delete (Supabase.from "tasks")))
    with (Sent.remove id).
  run_handler.
  destruct (Supabase.error (answer b (Sent.remove id))) as [e|]; cbn.
  - repeat split. discriminate.
  - repeat split. intros _. apply filter_length_le.
Qed.

Lemma delete_settles_with_one_toast_witness :
  length (tasks (final (handleDeleteTask Sample.listing "t-2" Sample.accepting
                          Sample.listing))) <= 3.
Proof.
  destruct (delete_settles_with_one_toast Sample.listing Sample.listing "t-2"
              Sample.accepting) as (_ & _ & _ & Hlen & _).
  apply Hlen. reflexivity.
Defined.

(** A status change, from any render and on any current state, sends its
    one request, lets no exception out, shows exactly one notification
    (success or failure wording by the store's answer), and leaves the
    loading flag, the form flag and the edited task alone.  It does not
    look at the current status or at the allowed set: any target string is
    sent as it is. *)
Theorem status_change_settles_with_one_toast
    (r s : State) (id newStatus : string) (b : Backend) :
  let run := handleStatusChange r id newStatus b s in
  outcome run = Returned tt /\
  requests (trace run) = [Sent.set_status id newStatus] /\
  Supabase.verb (Sent.set_status id newStatus) = Supabase.UpdateStatus newStatus /\
  toasts (trace run) =
    [match Supabase.error (answer b (Sent.set_status id newStatus)) with
     | None => status_toast
     | Some _ => status_failed_toast
     end] /\
  saved (trace run) = [] /\
  loading (final run) = loading s /\
  showForm (final run) = showForm s /\
  editingTask (final run) = editingTask s.
Proof.
  cbv zeta. unfold handleStatusChange.
  change (Supabase.eq "id" id (Supabase.update_status newStatus (Supabase.from "tasks")))
    with (Sent.set_status id newStatus).
  run_handler.
  destruct (Supabase.error (answer b (Sent.set_status id newStatus))) as [e|]; cbn;
    repeat split.
Qed.

(** Whatever the store answers, a status change keeps the list up to
    status: the same entries in the same order, equal in every field but
    status.  For an identifier that no entry has the request is still
    sent, and the list is exactly as before even when the store reports
    success. *)
Theorem status_change_keeps_all_but_status
    (r : State) (id newStatus : string) (b : Backend) :
  let run := handleStatusChange r id newStatus b r in
  map (fun t => Task.with_status t "") (tasks (final run))
  = map (fun t => Task.with_status t "") (tasks r) /\
  map Task.id (tasks (final run)) = map Task.id (tasks r) /\
  (~ In id (map Task.id (tasks r)) ->
     requests (trace run) = [Sent.set_status id newStatus] /\
     tasks (final run) = tasks r).
Proof.
  cbv zeta. unfold handleStatusChange.
  change (Supabase.eq "id" id (Supabase.update_status newStatus (Supabase.from "tasks")))
    with (Sent.set_status id newStatus).
  run_handler.
  destruct (Supabase.error (answer b (Sent.set_status id newStatus))) as [e|]; cbn.
  - repeat split.
  - split; [|split].
    + rewrite map_map. apply map_ext. intros t.
      now destruct (Task.id t =? id).
    + rewrite map_map. apply map_ext. intros t.
      now destruct (Task.id t =? id).
    + intros Habs. split; [reflexivity|].
      rewrite <- (map_id (tasks r)) at 2. apply map_ext_in. intros t Hin.
      destruct (Task.id t =? id) eqn:E; [|reflexivity].
      apply String.eqb_eq in E. exfalso. apply Habs. rewrite <- E.
      now apply in_map.
Qed.

Lemma status_change_keeps_all_but_status_witness :
  tasks (final (handleStatusChange Sample.listing "t-404" "completed"
                  Sample.accepting Sample.listing))
  = [Sample.milk; Sample.report; Sample.taxes].
Proof.
  destruct (status_change_keeps_all_but_status Sample.listing "t-404" "completed"
              Sample.accepting) as (_ & _ & Habs).
  apply Habs. cbn. intros [H|[H|[H|[]]]]; discriminate.
Defined.

End ListHandlers.

(** ** The status buttons as a transition system *)
Section StatusButtons.

Import TaskList.

Lemma statusButtons_targets (task : Task.t) :
  map click_status (statusButtons task) = offered (Task.status task).
Proof.
  unfold offered, statusButtons. cbn [Task.status].
  destruct (Task.status task =? "completed"), (Task.status task =? "pending");
    reflexivity.
Qed.

Lemma offered_unrecognised (status : string) :
  Task.is_status status = false -> offered status = ["completed"].
Proof.
  unfold Task.is_status, offered, statusButtons. cbn [Task.status]. intros H.
  apply orb_false_elim in H as [H Hc]. apply orb_false_elim in H as [Hp _].
  rewrite Hc, Hp. reflexivity.
Qed.

Lemma offered_targets_are_statuses (status target : string) :
  In target (offered status) -> Task.is_status target = true.
Proof.
  unfold offered, statusButtons. cbn [Task.status].
  destruct (status =? "completed"), (status =? "pending"); cbn;
    intuition (subst; reflexivity).
Qed.

(** For every status string, recognised or not: the targets on a card
    depend on the status alone, no button targets the status the task
    already has, and every target is one of the three statuses.  A status
    outside the three, which the display helpers label as pending, is
    offered the target completed only (the start button is not shown). *)
Theorem buttons_never_target_current_status (task : Task.t) :
  map click_status (statusButtons task) = offered (Task.status task) /\
  ~ In (Task.status task) (map click_status (statusButtons task)) /\
  Forall (fun target => Task.is_status target = true)
         (map click_status (statusButtons task)) /\
  (Task.is_status (Task.status task) = false ->
     map click_status (statusButtons task) = ["completed"] /\
     getStatusText (Task.status task) = getStatusText "pending").
Proof.
  split; [apply statusButtons_targets|]. rewrite statusButtons_targets.
  split; [|split].
  - unfold offered, statusButtons. cbn [Task.status].
    destruct (Task.status task =? "completed") eqn:Ec,
             (Task.status task =? "pending") eqn:Ep; cbn.
    + apply String.eqb_eq in Ec. rewrite Ec. intuition discriminate.
    + apply String.eqb_eq in Ec. rewrite Ec. intuition discriminate.
    + apply String.eqb_eq in Ep. rewrite Ep. intuition discriminate.
    + apply String.eqb_neq in Ec. intuition.
  - apply Forall_forall. intros target. apply offered_targets_are_statuses.
  - intros Hun. split; [now apply offered_unrecognised|].
    unfold Task.is_status in Hun.
    apply orb_false_elim in Hun as [Hun Hc]. apply orb_false_elim in Hun as [_ Hi].
    unfold getStatusText. now rewrite Hc, Hi.
Qed.

Lemma buttons_never_target_current_status_witness :
  map click_status
    (statusButtons (Task.with_status Sample.milk "archived")) = ["completed"] /\
  getStatusText "archived" = "Na čekanju".
Proof.
  destruct (buttons_never_target_current_status
              (Task.with_status Sample.milk "archived")) as (_ & _ & _ & Hun).
  apply Hun. reflexivity.
Defined.

(** The offered transitions leave no dead end: from each of the three
    statuses, each other one is offered directly or is offered after one
    offered step. *)
Theorem every_status_within_two_clicks (a b : string) :
  Task.is_status a = true -> Task.is_status b = true -> a <> b ->
  In b (offered a) \/ exists m, In m (offered a) /\ In b (offered m).
Proof.
  intros Ha Hb Hne.
  destruct (status_cases _ Ha) as [ -> | [ -> | -> ] ],
           (status_cases _ Hb) as [ -> | [ -> | -> ] ];
    try (exfalso; apply Hne; reflexivity).
  - left. cbn. auto.
  - left. cbn. auto.
  - right. exists "completed". cbn. auto.
  - left. cbn. auto.
  - left. cbn. auto.
  - right. exists "pending". cbn. auto.
Qed.

Lemma every_status_within_two_clicks_witness :
  In "in_progress" (offered "completed") \/
  exists m, In m (offered "completed") /\ In "in_progress" (offered m).
Proof.
  apply (every_status_within_two_clicks "completed" "in_progress");
    [reflexivity|reflexivity|discriminate].
Defined.

(** Recognised statuses are an invariant of the buttons: when every task
    of the list has one of the three statuses, it still has after the
    click of any status button of any card, whatever the store answers. *)
Theorem status_click_keeps_statuses_recognised
    (r : State) (task : Task.t) (button : StatusButton) (b : Backend) :
  Forall (fun t => Task.is_status (Task.status t) = true) (tasks r) ->
  In task (tasks r) ->
  In button (statusButtons task) ->
  Forall (fun t => Task.is_status (Task.status t) = true)
         (tasks (final (onClick_status r button b r))).
Proof.
  intros Hall Htask Hbutton.
  assert (Htarget : Task.is_status (click_status button) = true).
  { apply (offered_targets_are_statuses (Task.status task)).
    rewrite <- statusButtons_targets. now apply in_map. }
  unfold onClick_status, handleStatusChange. run_handler.
  destruct (Supabase.error (answer b _)); cbn; [exact Hall|].
  apply Forall_forall. intros t' Hin.
  apply in_map_iff in Hin as (t & <- & Hin).
  destruct (Task.id t =? click_id button); [exact Htarget|].
  rewrite Forall_forall in Hall. now apply Hall.
Qed.

Lemma status_click_keeps_statuses_recognised_witness :
  Forall (fun t => Task.is_status (Task.status t) = true)
    (tasks (final (onClick_status Sample.listing
                     {| caption := "Završi"; click_id := "t-2";
                        click_status := "completed" |}
                     Sample.accepting Sample.listing))).
Proof.
  apply (status_click_keeps_statuses_recognised Sample.listing Sample.report).
  - repeat constructor.
  - cbn. right. left. reflexivity.
  - cbn. left. reflexivity.
Defined.

End StatusButtons.

(** ** Handlers of one render *)
Section OneRender.

Import TaskList.

(** Each handler works on the list of the render that created it.  When
    two delete buttons of the same render are clicked and both deletes
    succeed, the second handler writes that render's list without its own
    task only: the task the first handler removed is in the local list
    again.  When the second click comes from the next render, both tasks
    are gone. *)
Theorem second_delete_of_a_render_restores_the_first
    (r : State) (t1 t2 : Task.t) (b1 b2 : Backend) :
  In t1 (tasks r) -> In t2 (tasks r) -> Task.id t1 <> Task.id t2 ->
  Supabase.error (answer b1 (Sent.remove (Task.id t1))) = None ->
  Supabase.error (answer b2 (Sent.remove (Task.id t2))) = None ->
  let s1 := final (onClick_delete r t1 b1 r) in
  ~ In t1 (tasks s1) /\
  In t1 (tasks (final (onClick_delete r t2 b2 s1))) /\
  ~ In t2 (tasks (final (onClick_delete r t2 b2 s1))) /\
  ~ In t1 (tasks (final (onClick_delete s1 t2 b2 s1))) /\
  ~ In t2 (tasks (final (onClick_delete s1 t2 b2 s1))).
Proof.
  intros H1 H2 Hne Hok1 Hok2. cbv zeta.
  unfold onClick_delete, handleDeleteTask.
  change (Supabase.eq "id" (Task.id t1) (Supabase.delete (Supabase.from "tasks")))
    with (Sent.remove (Task.id t1)).
  change (Supabase.eq "id" (Task.id t2) (Supabase.delete (Supabase.from "tasks")))
    with (Sent.remove (Task.id t2)).
  run_handler. rewrite Hok1. cbn. rewrite Hok2. cbn.
  assert (Hself : forall t l, ~ In t (filter (fun task => negb (Task.id task =? Task.id t)) l)).
  { intros t l Hin. apply filter_In in Hin as [_ Hf].
    rewrite String.eqb_refl in Hf. discriminate. }
  split; [apply Hself|]. split; [|split; [apply Hself|split; [|apply Hself]]].
  - apply filter_In. split; [exact H1|].
    apply String.eqb_neq in Hne. now rewrite Hne.
  - intros Hin. apply filter_In in Hin as [Hin _]. now apply Hself in Hin.
Qed.

Lemma second_delete_of_a_render_restores_the_first_witness :
  In Sample.milk
    (tasks (final (onClick_delete Sample.listing Sample.report Sample.accepting
                     (final (onClick_delete Sample.listing Sample.milk
                               Sample.accepting Sample.listing))))).
Proof.
  apply (second_delete_of_a_render_restores_the_first Sample.listing
           Sample.milk Sample.report Sample.accepting Sample.accepting).
  - cbn. left. reflexivity.
  - cbn. right. left. reflexivity.
  - discriminate.
  - reflexivity.
  - reflexivity.
Defined.

End OneRender.

(** ** Outcomes of a submit *)
Section SubmitOutcomes.

Import TaskForm.

Context {P : Type}.
Implicit Types (props : Props P) (r : State) (b : Backend) (s : P * State).

(** The form state after a handler run: the inputs as they were, not
    loading. *)
Lemma handleSubmit_form_after props r b s :
  snd (final (handleSubmit props r b s))
  = {| title := title (snd s); description := description (snd s);
       priority := priority (snd s); dueDate := dueDate (snd s);
       loading := false |}.
Proof.
  unfold handleSubmit. run_handler.
  destruct (buildTaskData r) as [d|e]; cbn; [|reflexivity].
  destruct (task props) as [t|]; cbn.
  - destruct (answer_single b _); reflexivity.
  - destruct (auth_user b) as [u|]; cbn; [|reflexivity].
    destruct (answer_single b _); reflexivity.
Qed.

(** A create that the store accepts. *)
Lemma handleSubmit_created props r b s (d : TaskData.t) (u : User.t) (row : Task.t) :
  task props = None ->
  buildTaskData r = Returned d ->
  auth_user b = Some u ->
  answer_single b (Sent.save_new d (User.id u)) = Supabase.Success row ->
  trace (handleSubmit props r b s)
  = [EvGetUser; EvRequest (Sent.save_new d (User.id u)); EvOnSave row;
     EvToast (saved_toast props)] /\
  fst (final (handleSubmit props r b s)) = onSave props row (fst s).
Proof.
  intros Htask Hbuild Huser Hanswer.
  unfold handleSubmit. run_handler. rewrite Hbuild. cbn. rewrite Htask. cbn.
  rewrite Huser. cbn.
  match goal with
  | |- context [answer_single b ?q] => change q with (Sent.save_new d (User.id u))
  end.
  rewrite Hanswer. cbn. split; reflexivity.
Qed.

(** An update that the store accepts. *)
Lemma handleSubmit_updated props r b s (d : TaskData.t) (t row : Task.t) :
  task props = Some t ->
  buildTaskData r = Returned d ->
  answer_single b (Sent.save_existing (Task.id t) d) = Supabase.Success row ->
  trace (handleSubmit props r b s)
  = [EvRequest (Sent.save_existing (Task.id t) d); EvOnSave row;
     EvToast (saved_toast props)] /\
  fst (final (handleSubmit props r b s)) = onSave props row (fst s).
Proof.
  intros Htask Hbuild Hanswer.
  unfold handleSubmit. run_handler. rewrite Hbuild. cbn. rewrite Htask. cbn.
  match goal with
  | |- context [answer_single b ?q] => change q with (Sent.save_existing (Task.id t) d)
  end.
  rewrite Hanswer. cbn. split; reflexivity.
Qed.

(** Every run of the submit handler ends in one of two ways, and lets no
    exception out, sends at most one request to the tasks table and leaves
    the loading flag off.  Either one request was answered with a row:
    [onSave] is called once, with exactly that row, and the one
    notification is the success one.  Or [onSave] is not called, the
    parent's state is untouched, and the one notification is the failure
    one. *)
Theorem submit_ends_saved_or_failed props r b s :
  let run := handleSubmit props r b s in
  outcome run = Returned tt /\
  loading (snd (final run)) = false /\
  length (requests (trace run)) <= 1 /\
  ((exists q row,
      requests (trace run) = [q] /\
      answer_single b q = Supabase.Success row /\
      saved (trace run) = [row] /\
      toasts (trace run) = [saved_toast props] /\
      fst (final run) = onSave props row (fst s))
   \/
   (saved (trace run) = [] /\
    toasts (trace run) = [failed_toast props] /\
    fst (final run) = fst s)).
Proof.
  cbv zeta. unfold handleSubmit. run_handler.
  destruct (buildTaskData r) as [d|e]; cbn.
  2: { repeat split; auto. }
  destruct (task props) as [t|]; cbn.
  - destruct (answer_single b _) as [row|msg] eqn:Ea; cbn.
    + repeat split; auto. left. eexists. exists row. repeat split. exact Ea.
    + repeat split; auto.
  - destruct (auth_user b) as [u|]; cbn.
    2: { repeat split; auto. }
    destruct (answer_single b _) as [row|msg] eqn:Ea; cbn.
    + repeat split; auto. left. eexists. exists row. repeat split. exact Ea.
    + repeat split; auto.
Qed.

(** When every request of a run was refused, the parent's state is
    untouched. *)
Lemma submit_refused_keeps_parent props r b s :
  (forall q, In q (requests (trace (handleSubmit props r b s))) ->
             exists e, answer_single b q = Supabase.Failure e) ->
  fst (final (handleSubmit props r b s)) = fst s.
Proof.
  unfold handleSubmit. run_handler.
  destruct (buildTaskData r) as [d|e]; cbn; [|reflexivity].
  destruct (task props) as [t|]; cbn.
  - destruct (answer_single b _) as [row|msg] eqn:Ea; cbn; intros Hall.
    + destruct (Hall _ (or_introl eq_refl)) as [e He]. congruence.
    + reflexivity.
  - destruct (auth_user b) as [u|]; cbn; [|reflexivity].
    destruct (answer_single b _) as [row|msg] eqn:Ea; cbn; intros Hall.
    + destruct (Hall _ (or_introl eq_refl)) as [e He]. congruence.
    + reflexivity.
Qed.

(** When every request of a run was refused, the parent's state is
    untouched and the form is as [handleSubmit_form_after] says. *)
Lemma failed_submit_keeps_form_state props r b s :
  (forall q, In q (requests (trace (handleSubmit props r b s))) ->
             exists e, answer_single b q = Supabase.Failure e) ->
  fst (final (handleSubmit props r b s)) = fst s /\
  snd (final (handleSubmit props r b s))
  = {| title := title (snd s); description := description (snd s);
       priority := priority (snd s); dueDate := dueDate (snd s);
       loading := false |}.
Proof.
  intros Hrefused. split; [|apply handleSubmit_form_after].
  now apply submit_refused_keeps_parent.
Qed.

End SubmitOutcomes.

(** ** From the list to the form and back *)
Section Flows.

Import TaskList.

Lemma view_list (s : State) :
  view s = ListView ->
  showForm s = false /\ editingTask s = None /\ loading s = false.
Proof.
  unfold view. destruct (showForm s), (editingTask s), (loading s); cbn;
    intros H; try discriminate; auto.
Qed.

(** With unique identifiers, replacing by the identifier of [t] puts the
    record where [t] was. *)
Lemma replace_unique (l : list Task.t) (t row : Task.t) :
  NoDup (map Task.id l) -> In t l -> Task.id row = Task.id t ->
  exists l1 l2,
    l = (l1 ++ t :: l2)%list /\
    map (fun x => if Task.id x =? Task.id row then row else x) l
    = (l1 ++ row :: l2)%list.
Proof.
  intros Hnd Hin Hid.
  induction l as [|a l IH]; [contradiction|].
  cbn in Hnd. inversion Hnd as [|? ? Hfresh Hnd']; subst.
  destruct Hin as [->|Hin].
  - exists [], l. split; [reflexivity|]. cbn.
    rewrite Hid, String.eqb_refl. f_equal. rewrite <- Hid.
    apply replace_absent. intros x Hx Heq. apply Hfresh.
    rewrite <- Hid, <- Heq. now apply in_map.
  - destruct (IH Hnd' Hin) as (l1 & l2 & Hl & Hm).
    exists (a :: l1), l2. split; [cbn; now rewrite Hl|].
    cbn. rewrite Hm. destruct (Task.id a =? Task.id row) eqn:E; [|reflexivity].
    apply String.eqb_eq in E. exfalso. apply Hfresh. rewrite E, Hid.
    now apply in_map.
Qed.

(** The first load always ends on the list view: from a state that shows
    no form, after [fetchTasks] the component shows the list view whatever
    the store answers, and after a failed load it shows exactly the cards
    it had (none on the first load). *)
Theorem load_ends_on_list_view (b : Backend) (s : State) :
  showForm s = false -> editingTask s = None ->
  view (final (fetchTasks b s)) = ListView /\
  (Supabase.error (answer b Sent.load) <> None ->
     cards (final (fetchTasks b s)) = cards s) /\
  (Supabase.error (answer b Sent.load) = None ->
     map fst (cards (final (fetchTasks b s)))
     = or_empty (Supabase.data (answer b Sent.load))).
Proof.
  intros Hform Hedit. unfold fetchTasks.
  change (Supabase.order "created_at" false (Supabase.select "*" (Supabase.from "tasks")))
    with Sent.load.
  run_handler.
  destruct (Supabase.error (answer b Sent.load)) as [e|]; cbn.
  - unfold view. cbn. rewrite Hform, Hedit. cbn.
    split; [reflexivity|]. split; [reflexivity|]. congruence.
  - unfold view, cards. cbn. rewrite Hform, Hedit. cbn.
    split; [reflexivity|]. split; [congruence|]. intros _.
    rewrite map_map. cbn. apply map_id.
Qed.

Lemma load_ends_on_list_view_witness :
  view (final (fetchTasks Sample.rejecting initial)) = ListView /\
  cards (final (fetchTasks Sample.rejecting initial)) = [].
Proof.
  destruct (load_ends_on_list_view Sample.rejecting initial eq_refl eq_refl)
    as (Hview & Hfail & _).
  split; [exact Hview|]. apply Hfail. discriminate.
Defined.

(** Cancel asks nothing and checks nothing: whatever the inputs hold (an
    empty title included) and whether or not a submission is pending, the
    cancel button calls [onCancel] once, sends no request, shows no
    notification, leaves the task list and the loading flag of the list
    as they are, and the component leaves the form view. *)
Theorem cancel_leaves_form_without_request
    (r s : State) (f : TaskForm.State) (b : Backend) :
  let run := TaskForm.cancel (formProps r) b (s, f) in
  trace run = [EvOnCancel] /\
  requests (trace run) = [] /\
  toasts (trace run) = [] /\
  tasks (fst (final run)) = tasks s /\
  loading (fst (final run)) = loading s /\
  snd (final run) = f /\
  view (fst (final run)) <> FormView.
Proof.
  cbv zeta. unfold TaskForm.cancel, TaskForm.call_onCancel. cbn.
  repeat split. unfold view. cbn. destruct (loading s); discriminate.
Qed.

(** The create flow.  From the list view, the add button opens the form
    with no seed record.  When the title is not empty, the date field is
    empty or a date, a user is signed in and the store answers the insert
    with a row, a submit does, in this order: resolve the user, send the
    insert of the payload with the user's identifier, hand the row to
    [onSave], show the created notification; afterwards the row is the
    first entry of the list, the earlier entries follow unchanged, and the
    list view is shown. *)
Theorem create_flow_prepends_row
    (s : State) (f : TaskForm.State) (b : Backend) (u : User.t) (row : Task.t) :
  view s = ListView ->
  TaskForm.title f <> "" ->
  TaskForm.loading f = false ->
  TaskForm.dueDate f = "" \/ JSDate.is_date_input_value (TaskForm.dueDate f) = true ->
  auth_user b = Some u ->
  let payload :=
    {| TaskData.title := TaskForm.title f;
       TaskData.description := spec_null_if_empty (TaskForm.description f);
       TaskData.priority := TaskForm.priority f;
       TaskData.due_date := spec_start_of_day (TaskForm.dueDate f) |} in
  answer_single b (Sent.save_new payload (User.id u)) = Supabase.Success row ->
  let s1 := onClick_add s in
  let run := TaskForm.submit (formProps s1) b (s1, f) in
  view s1 = FormView /\
  TaskForm.task (formProps s1) = None /\
  trace run = [EvGetUser; EvRequest (Sent.save_new payload (User.id u));
               EvOnSave row; EvToast (TaskForm.saved_toast (formProps s1))] /\
  Toast.description (TaskForm.saved_toast (formProps s1)) = "Zadatak je kreiran" /\
  tasks (fst (final run)) = row :: tasks s /\
  view (fst (final run)) = ListView.
Proof.
  intros Hview Htitle Hidle Hdate Huser payload Hanswer s1 run.
  destruct (view_list s Hview) as (Hform & Hedit & Hload).
  assert (Hseed : TaskForm.task (formProps s1) = None) by exact Hedit.
  pose proof (buildTaskData_entered f Hdate) as Hbuild. fold payload in Hbuild.
  destruct (handleSubmit_created (formProps s1) f b (s1, f) payload u row
              Hseed Hbuild Huser Hanswer) as (Htrace & Hfinal).
  assert (Hrun : run = TaskForm.handleSubmit (formProps s1) f b (s1, f)).
  { unfold run, TaskForm.submit, truthy. cbn [snd]. rewrite Hidle.
    apply String.eqb_neq in Htitle. rewrite Htitle. reflexivity. }
  rewrite Hrun, Htrace, Hfinal.
  split; [unfold s1, view, onClick_add; cbn; reflexivity|].
  split; [exact Hseed|]. split; [reflexivity|].
  split; [unfold TaskForm.saved_toast; rewrite Hseed; reflexivity|].
  unfold formProps, onSave, s1, onClick_add, view. cbn. rewrite Hedit. cbn.
  rewrite Hload. split; reflexivity.
Qed.

Lemma create_flow_prepends_row_witness :
  let f := Sample.form "Call bank" "2024-03-05" in
  let s1 := onClick_add Sample.listing in
  let run := TaskForm.submit (formProps s1) Sample.accepting (s1, f) in
  length (tasks (fst (final run))) = 4 /\
  view (fst (final run)) = ListView.
Proof.
  cbv zeta.
  destruct (create_flow_prepends_row Sample.listing
              (Sample.form "Call bank" "2024-03-05") Sample.accepting Sample.alice
              (Sample.stored (Sent.save_new
                 {| TaskData.title := "Call bank"; TaskData.description := None;
                    TaskData.priority := "medium";
                    TaskData.due_date := Some "2024-03-05T00:00:00.000Z" |}
                 "u-alice")))
    as (_ & _ & _ & _ & Htasks & Hview);
    [reflexivity|discriminate|reflexivity|right; reflexivity|reflexivity|reflexivity|].
  split; [rewrite Htasks; reflexivity|exact Hview].
Defined.

(** The update flow.  From the list view over unique identifiers, the
    pencil button of a task opens the form seeded with it.  When the title
    is not empty, the date field is empty or a date, and the store answers
    the update with a row of the same identifier, a submit sends one
    update filtered by the task's identifier, hands the row to [onSave]
    and shows the updated notification; afterwards the row stands where
    the task stood, every other entry is untouched, and the list view is
    shown.  No user is resolved on this path. *)
Theorem update_flow_replaces_in_place
    (s : State) (t : Task.t) (f : TaskForm.State) (b : Backend) (row : Task.t) :
  view s = ListView ->
  NoDup (map Task.id (tasks s)) ->
  In t (tasks s) ->
  TaskForm.title f <> "" ->
  TaskForm.loading f = false ->
  TaskForm.dueDate f = "" \/ JSDate.is_date_input_value (TaskForm.dueDate f) = true ->
  let payload :=
    {| TaskData.title := TaskForm.title f;
       TaskData.description := spec_null_if_empty (TaskForm.description f);
       TaskData.priority := TaskForm.priority f;
       TaskData.due_date := spec_start_of_day (TaskForm.dueDate f) |} in
  answer_single b (Sent.save_existing (Task.id t) payload) = Supabase.Success row ->
  Task.id row = Task.id t ->
  let s1 := onClick_edit t s in
  let run := TaskForm.submit (formProps s1) b (s1, f) in
  view s1 = FormView /\
  TaskForm.task (formProps s1) = Some t /\
  trace run = [EvRequest (Sent.save_existing (Task.id t) payload);
               EvOnSave row; EvToast (TaskForm.saved_toast (formProps s1))] /\
  Toast.description (TaskForm.saved_toast (formProps s1)) = "Zadatak je ažuriran" /\
  (exists l1 l2, tasks s = (l1 ++ t :: l2)%list /\
                 tasks (fst (final run)) = (l1 ++ row :: l2)%list) /\
  view (fst (final run)) = ListView.
Proof.
  intros Hview Hnd Hin Htitle Hidle Hdate payload Hanswer Hid s1 run.
  destruct (view_list s Hview) as (Hform & Hedit & Hload).
  assert (Hseed : TaskForm.task (formProps s1) = Some t) by reflexivity.
  pose proof (buildTaskData_entered f Hdate) as Hbuild. fold payload in Hbuild.
  destruct (handleSubmit_updated (formProps s1) f b (s1, f) payload t row
              Hseed Hbuild Hanswer) as (Htrace & Hfinal).
  assert (Hrun : run = TaskForm.handleSubmit (formProps s1) f b (s1, f)).
  { unfold run, TaskForm.submit, truthy. cbn [snd]. rewrite Hidle.
    apply String.eqb_neq in Htitle. rewrite Htitle. reflexivity. }
  rewrite Hrun, Htrace, Hfinal.
  split; [unfold s1, view, onClick_edit; cbn; now rewrite orb_true_r|].
  split; [exact Hseed|]. split; [reflexivity|].
  split; [reflexivity|].
  unfold formProps, onSave, s1, onClick_edit, view. cbn. rewrite Hload. cbn.
  split; [|reflexivity].
  now apply replace_unique.
Qed.

Lemma update_flow_replaces_in_place_witness :
  let f := Sample.form "Write the report" "2024-03-12" in
  let s1 := onClick_edit Sample.report Sample.listing in
  let run := TaskForm.submit (formProps s1) Sample.accepting (s1, f) in
  map Task.title (tasks (fst (final run)))
  = ["Buy milk"; "Write the report"; "File taxes"] /\
  view (fst (final run)) = ListView.
Proof.
  cbv zeta.
  destruct (update_flow_replaces_in_place Sample.listing Sample.report
              (Sample.form "Write the report" "2024-03-12") Sample.accepting
              (Sample.stored (Sent.save_existing "t-2"
                 {| TaskData.title := "Write the report"; TaskData.description := None;
                    TaskData.priority := "medium";
                    TaskData.due_date := Some "2024-03-12T00:00:00.000Z" |})))
    as (_ & _ & _ & _ & _ & Hview).
  - reflexivity.
  - cbn. repeat constructor; cbn; intuition discriminate.
  - cbn. right. left. reflexivity.
  - discriminate.
  - reflexivity.
  - right. reflexivity.
  - reflexivity.
  - reflexivity.
  - split; [reflexivity|exact Hview].
Defined.

End Flows.

(** ** The seeded form *)
Section SeededForm.

Import JSDate TaskForm.
Local Open Scope nat_scope.

Lemma digit_is_not_T (c : ascii) (v : nat) :
  digit_value c = Some v -> Ascii.eqb c "T" = false.
Proof.
  intros H. destruct (Ascii.eqb c "T") eqn:E; [|reflexivity].
  apply Ascii.eqb_eq in E. subst c. discriminate H.
Qed.

Lemma digits2_are_not_T (c1 c0 : ascii) (n : nat) :
  digits2 c1 c0 = Some n -> Ascii.eqb c1 "T" = false /\ Ascii.eqb c0 "T" = false.
Proof.
  unfold digits2.
  destruct (digit_value c1) eqn:E1; [|discriminate].
  destruct (digit_value c0) eqn:E0; [|discriminate].
  intros _. split; eapply digit_is_not_T; eassumption.
Qed.

Lemma digits4_are_not_T (c3 c2 c1 c0 : ascii) (n : nat) :
  digits4 c3 c2 c1 c0 = Some n ->
  Ascii.eqb c3 "T" = false /\ Ascii.eqb c2 "T" = false /\
  Ascii.eqb c1 "T" = false /\ Ascii.eqb c0 "T" = false.
Proof.
  unfold digits4.
  destruct (digit_value c3) eqn:E3; [|discriminate].
  destruct (digit_value c2) eqn:E2; [|discriminate].
  destruct (digits2 c1 c0) eqn:E; [|discriminate].
  intros _. destruct (digits2_are_not_T _ _ _ E) as [H1 H0].
  repeat split; try assumption; eapply digit_is_not_T; eassumption.
Qed.

(** The text before the first [T] of a printed timestamp is its date. *)
Lemma split_head_of_date (y3 y2 y1 y0 m1 m0 d1 d0 : ascii) (y m d : nat) (rest : string) :
  digits4 y3 y2 y1 y0 = Some y -> digits2 m1 m0 = Some m -> digits2 d1 d0 = Some d ->
  split_head "T"
    (String y3 (String y2 (String y1 (String y0 (String "-"
      (String m1 (String m0 (String "-" (String d1 (String d0
        (String "T" rest)))))))))))
  = String y3 (String y2 (String y1 (String y0 (String "-"
      (String m1 (String m0 (String "-" (String d1 (String d0 ""))))))))).
Proof.
  intros Hy Hm Hd.
  destruct (digits4_are_not_T _ _ _ _ _ Hy) as (E3 & E2 & E1 & E0).
  destruct (digits2_are_not_T _ _ _ Hm) as (F1 & F0).
  destruct (digits2_are_not_T _ _ _ Hd) as (G1 & G0).
  cbn [split_head]. rewrite E3, E2, E1, E0, F1, F0, G1, G0. reflexivity.
Qed.

(** What the form shows for a stored timestamp that [new_Date_stored]
    reads: the first ten characters, which are a date of the date input. *)
Lemma shown_date_of_stamp (stamp : string) :
  new_Date_stored stamp <> None ->
  exists iso,
    toISOString (new_Date_stored stamp) = Returned iso /\
    split_head "T" iso = substring 0 10 stamp /\
    is_date_input_value (substring 0 10 stamp) = true.
Proof.
  unfold new_Date_stored, new_Date.
  destruct (parse_date_only stamp) as [[[y m] d]|] eqn:Ep.
  - intros _. unfold parse_date_only in Ep.
    pose proof (string_of_list_ascii_of_string stamp) as Hs.
    destruct (list_ascii_of_string stamp)
      as [|y3 [|y2 [|y1 [|y0 [|h1 [|m1 [|m0 [|h2 [|d1 [|d0 [|x l]]]]]]]]]]];
      try discriminate.
    cbn in Hs. subst stamp.
    destruct (Ascii.eqb h1 "-" && Ascii.eqb h2 "-")%bool eqn:Eh; [|discriminate].
    apply andb_prop in Eh as [H1 H2]. apply Ascii.eqb_eq in H1, H2. subst h1 h2.
    destruct (digits4 y3 y2 y1 y0) as [y'|] eqn:Ey; [|discriminate].
    destruct (digits2 m1 m0) as [m'|] eqn:Em; [|discriminate].
    destruct (digits2 d1 d0) as [d'|] eqn:Ed; [|discriminate].
    destruct (valid_day y' m' d') eqn:Ev; [|discriminate].
    injection Ep as <- <- <-.
    eexists. split; [reflexivity|].
    unfold year_string. cbn [year month day hours minutes seconds milliseconds].
    rewrite (digits4_print _ _ _ _ _ Ey), (digits2_print _ _ _ Em),
      (digits2_print _ _ _ Ed).
    cbn [append]. rewrite (split_head_of_date _ _ _ _ _ _ _ _ _ _ _ _ Ey Em Ed).
    split; [reflexivity|].
    unfold is_date_input_value, parse_date_only. cbn.
    rewrite Ey, Em, Ed, Ev. reflexivity.
  - unfold parse_date_time.
    pose proof (string_of_list_ascii_of_string stamp) as Hs.
    destruct (list_ascii_of_string stamp)
      as [|y3 [|y2 [|y1 [|y0 [|h1 [|m1 [|m0 [|h2 [|d1 [|d0 [|sep [|hh1 [|hh0
          [|c1 [|mi1 [|mi0 [|c2 [|s1 [|s0 tail]]]]]]]]]]]]]]]]]]];
      try (intros H; now elim H).
    cbn in Hs. subst stamp.
    destruct (Ascii.eqb h1 "-" && Ascii.eqb h2 "-" && Ascii.eqb sep "T"
              && Ascii.eqb c1 ":" && Ascii.eqb c2 ":")%bool eqn:Eh;
      [|intros H; now elim H].
    repeat (apply andb_prop in Eh as [Eh ?]).
    repeat match goal with
           | H : Ascii.eqb _ _ = true |- _ => apply Ascii.eqb_eq in H
           end.
    subst h1 h2 sep c1 c2.
    destruct (digits4 y3 y2 y1 y0) as [y'|] eqn:Ey; [|intros H; now elim H].
    destruct (digits2 m1 m0) as [m'|] eqn:Em; [|intros H; now elim H].
    destruct (digits2 d1 d0) as [d'|] eqn:Ed; [|intros H; now elim H].
    destruct (digits2 hh1 hh0) as [h'|]; [|intros H; now elim H].
    destruct (digits2 mi1 mi0) as [mi'|]; [|intros H; now elim H].
    destruct (digits2 s1 s0) as [sec'|]; [|intros H; now elim H].
    destruct (parse_tail tail) as [ms'|]; [|intros H; now elim H].
    destruct (valid_day y' m' d') eqn:Ev; [|intros H; now elim H].
    destruct (valid_time h' mi' sec'); [|intros H; now elim H].
    intros _. cbn [andb].
    eexists. split; [reflexivity|].
    unfold year_string. cbn [year month day hours minutes seconds milliseconds].
    rewrite (digits4_print _ _ _ _ _ Ey), (digits2_print _ _ _ Em),
      (digits2_print _ _ _ Ed).
    cbn [append]. rewrite (split_head_of_date _ _ _ _ _ _ _ _ _ _ _ _ Ey Em Ed).
    split; [reflexivity|].
    unfold is_date_input_value, parse_date_only. cbn.
    rewrite Ey, Em, Ed, Ev. reflexivity.
Qed.

End SeededForm.

Section EditRoundTrip.

Import JSDate TaskForm.

(** The timestamp that the form writes for a date is read back, and its
    first ten characters are the date. *)
Lemma written_stamp_is_read (d : string) :
  is_date_input_value d = true ->
  new_Date_stored (d ++ "T00:00:00.000Z") <> None /\
  substring 0 10 (d ++ "T00:00:00.000Z") = d /\
  d ++ "T00:00:00.000Z" <> "".
Proof.
  unfold is_date_input_value.
  destruct (parse_date_only d) as [[[y m] dd]|] eqn:Ep; [intros _|discriminate].
  unfold parse_date_only in Ep.
  pose proof (string_of_list_ascii_of_string d) as Hs.
  destruct (list_ascii_of_string d)
    as [|y3 [|y2 [|y1 [|y0 [|h1 [|m1 [|m0 [|h2 [|d1 [|d0 [|x l]]]]]]]]]]];
    try discriminate.
  cbn in Hs. subst d.
  destruct (Ascii.eqb h1 "-" && Ascii.eqb h2 "-")%bool eqn:Eh; [|discriminate].
  apply andb_prop in Eh as [H1 H2]. apply Ascii.eqb_eq in H1, H2. subst h1 h2.
  destruct (digits4 y3 y2 y1 y0) as [y'|] eqn:Ey; [|discriminate].
  destruct (digits2 m1 m0) as [m'|] eqn:Em; [|discriminate].
  destruct (digits2 d1 d0) as [d'|] eqn:Ed; [|discriminate].
  destruct (valid_day y' m' d') eqn:Ev; [|discriminate].
  split; [|split; [reflexivity|discriminate]].
  unfold new_Date_stored, new_Date, parse_date_only, parse_date_time. cbn.
  rewrite Ey, Em, Ed, Ev. cbn. discriminate.
Qed.

(** The form opened on a task shows the task: the title; the description,
    or nothing for a null one; the priority, or medium for an empty one;
    and the due date, when it is null, empty, or a timestamp that
    [new_Date_stored] reads: a date [YYYY-MM-DD], or a date and time
    [YYYY-MM-DDTHH:mm:ss] with an optional fraction of any length and the
    offset [Z] or [+00:00], with a year of four digits, a day of the
    calendar, hours to 23, minutes and seconds to 59.  Of such a timestamp
    the form shows the first ten characters, the UTC date.  Saving these
    values unchanged sends the title and the priority, the description
    with an empty text turned to null, and as due date the start of that
    UTC day: a time of day of the stored timestamp is dropped. *)
Theorem seeded_form_shows_and_resends_task (t : Task.t) :
  (forall stamp, Task.due_date t = Some stamp -> stamp <> "" ->
                 new_Date_stored stamp <> None) ->
  exists f,
    initialState (Some t) = Returned f /\
    title f = Task.title t /\
    description f = match Task.description t with Some d => d | None => "" end /\
    priority f = (if Task.priority t =? "" then "medium" else Task.priority t) /\
    dueDate f = match Task.due_date t with
                | Some stamp => substring 0 10 stamp
                | None => ""
                end /\
    loading f = false /\
    buildTaskData f =
      Returned {| TaskData.title := Task.title t;
                  TaskData.description :=
                    match Task.description t with
                    | Some d => spec_null_if_empty d
                    | None => None
                    end;
                  TaskData.priority :=
                    if Task.priority t =? "" then "medium" else Task.priority t;
                  TaskData.due_date :=
                    match Task.due_date t with
                    | Some stamp => spec_start_of_day (substring 0 10 stamp)
                    | None => None
                    end |}.
Proof.
  intros Hread.
  assert (Hshown : exists shown,
            initial_dueDate (Some t) = Returned shown /\
            shown = match Task.due_date t with
                    | Some stamp => substring 0 10 stamp
                    | None => ""
                    end /\
            (shown = "" \/ is_date_input_value shown = true)).
  { unfold initial_dueDate. destruct (Task.due_date t) as [stamp|] eqn:Edue.
    - unfold truthy. destruct (stamp =? "") eqn:Eempty; cbn.
      + apply String.eqb_eq in Eempty. subst stamp.
        exists "". repeat split. now left.
      + apply String.eqb_neq in Eempty.
        destruct (shown_date_of_stamp stamp (Hread stamp eq_refl Eempty))
          as (iso & Hiso & Hsplit & Hvalid).
        rewrite Hiso. exists (split_head "T" iso).
        split; [reflexivity|]. split; [exact Hsplit|].
        right. now rewrite Hsplit.
    - exists "". repeat split. now left. }
  destruct Hshown as (shown & Hinit & Hshown & Hdate).
  unfold initialState. rewrite Hinit. eexists. split; [reflexivity|].
  cbn [title description priority dueDate loading].
  assert (Hor : forall a, or_else a "" = a).
  { intros a. unfold or_else, truthy. destruct (a =? "") eqn:E; [|reflexivity].
    apply String.eqb_eq in E. now subst. }
  assert (Hprio : or_else (Task.priority t) "medium"
                  = if Task.priority t =? "" then "medium" else Task.priority t).
  { unfold or_else, truthy. now destruct (Task.priority t =? ""). }
  rewrite Hor, Hprio.
  split; [reflexivity|]. split; [destruct (Task.description t); [apply Hor|reflexivity]|].
  split; [reflexivity|]. split; [exact Hshown|]. split; [reflexivity|].
  rewrite buildTaskData_entered by exact Hdate.
  cbn [title description priority dueDate loading]. f_equal. f_equal.
  - destruct (Task.description t) as [d|]; [now rewrite Hor|reflexivity].
  - rewrite Hshown. now destruct (Task.due_date t).
Qed.

Lemma seeded_form_shows_and_resends_task_witness :
  exists f,
    initialState (Some Sample.audit) = Returned f /\
    dueDate f = "2024-03-10" /\
    buildTaskData f =
      Returned {| TaskData.title := "Prepare audit"; TaskData.description := None;
                  TaskData.priority := "low";
                  TaskData.due_date := Some "2024-03-10T00:00:00.000Z" |}.
Proof.
  destruct (seeded_form_shows_and_resends_task Sample.audit)
    as (f & Hinit & _ & _ & _ & Hdue & _ & Hbuild).
  - intros stamp [= <-] _. discriminate.
  - exists f. split; [exact Hinit|]. split; [exact Hdue|exact Hbuild].
Defined.

(** Opening a task and saving at once changes nothing.  For a task with a
    title, a priority, a description that is null or not empty, and a due
    date that is null or was written by the form (a date at its start of
    day), the pencil button mounts a form whose submit sends one update,
    filtered by the task's identifier, whose payload is the task's own
    title, description, priority and due date. *)
Theorem untouched_edit_sends_task_back (s : TaskList.State) (t : Task.t) (b : Backend) :
  Task.title t <> "" ->
  Task.priority t <> "" ->
  Task.description t <> Some "" ->
  (Task.due_date t = None \/
   exists d, is_date_input_value d = true /\
             Task.due_date t = Some (d ++ "T00:00:00.000Z")) ->
  let s1 := TaskList.onClick_edit t s in
  let own :=
    {| TaskData.title := Task.title t; TaskData.description := Task.description t;
       TaskData.priority := Task.priority t; TaskData.due_date := Task.due_date t |} in
  exists f,
    TaskList.mountForm s1 = Returned (s1, f) /\
    buildTaskData f = Returned own /\
    requests (trace (submit (TaskList.formProps s1) b (s1, f)))
    = [Sent.save_existing (Task.id t) own].
Proof.
  intros Htitle Hprio Hdesc Hdue s1 own.
  assert (Hread : forall stamp, Task.due_date t = Some stamp -> stamp <> "" ->
                                new_Date_stored stamp <> None).
  { intros stamp Hstamp _. destruct Hdue as [Hnone|(d & Hd & Hsome)]; [congruence|].
    rewrite Hsome in Hstamp. injection Hstamp as <-.
    now apply written_stamp_is_read. }
  destruct (seeded_form_shows_and_resends_task t Hread)
    as (f & Hinit & Hft & _ & _ & Hfd & Hfl & Hbuild).
  assert (Hown : buildTaskData f = Returned own).
  { rewrite Hbuild. unfold own. f_equal. f_equal.
    - destruct (Task.description t) as [d|]; [|reflexivity].
      unfold spec_null_if_empty. destruct (d =? "") eqn:E; [|reflexivity].
      apply String.eqb_eq in E. congruence.
    - apply String.eqb_neq in Hprio. now rewrite Hprio.
    - destruct Hdue as [->|(d & Hd & ->)]; [reflexivity|].
      destruct (written_stamp_is_read d Hd) as (_ & -> & _).
      unfold spec_start_of_day. unfold is_date_input_value in Hd.
      destruct (d =? "") eqn:E; [|reflexivity].
      apply String.eqb_eq in E. subst d. discriminate Hd. }
  exists f. split; [|split; [exact Hown|]].
  - unfold TaskList.mountForm. cbn. cbn in Hinit. now rewrite Hinit.
  - unfold submit, truthy. cbn [snd]. rewrite Hfl, Hft.
    apply String.eqb_neq in Htitle. rewrite Htitle. cbn [orb negb].
    unfold handleSubmit. run_handler. rewrite Hown. cbn.
    destruct (answer_single b _); reflexivity.
Qed.

Lemma untouched_edit_sends_task_back_witness :
  exists f,
    TaskList.mountForm (TaskList.onClick_edit Sample.report Sample.listing)
    = Returned (TaskList.onClick_edit Sample.report Sample.listing, f) /\
    buildTaskData f =
      Returned {| TaskData.title := "Write report";
                  TaskData.description := Some "quarterly";
                  TaskData.priority := "high";
                  TaskData.due_date := Some "2024-03-10T00:00:00.000Z" |}.
Proof.
  destruct (untouched_edit_sends_task_back Sample.listing Sample.report Sample.accepting)
    as (f & Hmount & Hbuild & _).
  - discriminate.
  - discriminate.
  - discriminate.
  - right. exists "2024-03-10". split; reflexivity.
  - exists f. split; [exact Hmount|exact Hbuild].
Defined.

End EditRoundTrip.

(** ** Retrying a failed submit *)
Section Retry.

Import TaskForm.

Context {P : Type}.
Implicit Types (props : Props P) (b : Backend) (s : P * State).

(** A failed submit leaves no mark on the state.  When the form is idle
    and every request the submit sent was refused (or it sent none), the
    parent's state and the form's state afterwards are exactly the ones
    before, so a second submit behaves as a first one would: against a
    store that accepts, the retry gives the run that a first attempt
    against that store gives. *)
Theorem failed_submit_can_be_retried props b s :
  loading (snd s) = false ->
  (forall q, In q (requests (trace (submit props b s))) ->
             exists e, answer_single b q = Supabase.Failure e) ->
  final (submit props b s) = s /\
  forall b', submit props b' (final (submit props b s)) = submit props b' s.
Proof.
  intros Hidle Hrefused.
  assert (Hsame : final (submit props b s) = s).
  { revert Hrefused. unfold submit. rewrite Hidle. cbn [orb].
    destruct (negb (truthy (title (snd s)))); [reflexivity|].
    intros Hrefused.
    destruct (failed_submit_keeps_form_state props (snd s) b s Hrefused) as [Hp Hf].
    destruct s as [p f]. cbn [fst snd] in *.
    destruct (final (handleSubmit props f b (p, f))) as [p' f'].
    cbn [fst snd] in *. subst p' f'. f_equal.
    destruct f. cbn in Hidle. now subst. }
  split; [exact Hsame|]. intros b'. now rewrite Hsame.
Qed.

End Retry.

Lemma failed_submit_can_be_retried_witness :
  let s := (Sample.editing, Sample.form "Write the report" "2024-03-12") in
  final (TaskForm.submit (TaskList.formProps Sample.editing) Sample.rejecting s) = s.
Proof.
  apply (failed_submit_can_be_retried (TaskList.formProps Sample.editing)
           Sample.rejecting
           (Sample.editing, Sample.form "Write the report" "2024-03-12")).
  - reflexivity.
  - intros q _. exists "denied". reflexivity.
Defined.
